(** * Response processors of py-sc-client

    A shallow embedding of [sc_client/client/_resonse_processor.py]: the
    per-command decoders that turn a server response into the value the
    client API returns, together with the properties they satisfy.

    Python values that travel in a response are JSON values; the decoders
    read them with [dict.get], subscription, iteration and truth testing,
    each of which can raise.  The two event decoders also update the
    session's table of events, which is threaded through explicitly. *)

From Stdlib Require Import ZArith String Ascii List Lia.
From stdpp Require Import base option list countable strings gmap.

Open Scope string_scope.
Open Scope Z_scope.

#[local] Set Warnings "-clear-no-such-hyp".

(** ** Python values carried by a response *)

(** What [json.loads] produces.  An object keeps its pairs in insertion
    order, like a Python [dict]; a float is kept as its binary64 bit
    pattern, because the decoders only carry it around. *)
#[warnings="-register-all"]
Inductive json : Type :=
| JNone
| JBool (b : bool)
| JInt (z : Z)
| JFloat (bits : Z)
| JStr (s : string)
| JList (items : list json)
| JDict (pairs : list (string * json)).

(** Exceptions the decoders can raise through the operations they use. *)
Inductive exn : Type :=
| TypeError
| IndexError
| KeyError
| AttributeError.

(** Outcome of a Python expression: a value, or a raised exception. *)
Inductive outcome (A : Type) : Type :=
| Ok (a : A)
| Raise (e : exn).
Arguments Ok {A} a.
Arguments Raise {A} e.

Definition obind {A B : Type} (m : outcome A) (k : A -> outcome B) : outcome B :=
  match m with
  | Ok a => k a
  | Raise e => Raise e
  end.

Notation "'let*' x := m 'in' k" := (obind m (fun x => k))
  (at level 10, x name, m at level 200, k at level 200, only parsing).

(** [[f(x) for x in xs]] where [f] may raise: left to right, the first
    exception wins. *)
Fixpoint omap {A B : Type} (f : A -> outcome B) (xs : list A) : outcome (list B) :=
  match xs with
  | [] => Ok []
  | x :: rest =>
      let* y := f x in
      let* ys := omap f rest in
      Ok (y :: ys)
  end.

(** *** Truth value, [bool(v)] *)

Definition float_is_zero (bits : Z) : bool :=
  (bits =? 0) || (bits =? 2 ^ 63).

Definition truthy (v : json) : bool :=
  match v with
  | JNone => false
  | JBool b => b
  | JInt z => negb (z =? 0)
  | JFloat bits => negb (float_is_zero bits)
  | JStr s => negb (String.length s =? 0)%nat
  | JList items => negb (length items =? 0)%nat
  | JDict pairs => negb (length pairs =? 0)%nat
  end.

(** *** [dict.get(key)]: the value stored under the key, else [None]

    The keys of a dict are distinct; the lookup stops at the first pair
    with the key. *)

Fixpoint dict_get (pairs : list (string * json)) (key : string) : json :=
  match pairs with
  | [] => JNone
  | (k, v) :: rest => if String.eqb k key then v else dict_get rest key
  end.

(** [v.get(key)] on an arbitrary value: only a dict has the method. *)
Definition py_get (v : json) (key : string) : outcome json :=
  match v with
  | JDict pairs => Ok (dict_get pairs key)
  | _ => Raise AttributeError
  end.

(** *** Subscription [v[i]] with a non-negative integer index *)

Definition char_str (c : ascii) : json := JStr (String c EmptyString).

Definition subscript (v : json) (i : nat) : outcome json :=
  match v with
  | JList items =>
      match items !! i with
      | Some x => Ok x
      | None => Raise IndexError
      end
  | JStr s =>
      match String.get i s with
      | Some c => Ok (char_str c)
      | None => Raise IndexError
      end
  | JDict _ => Raise KeyError
  | JNone | JBool _ | JInt _ | JFloat _ => Raise TypeError
  end.

(** *** Iteration, [for x in v] *)

Definition iterate (v : json) : outcome (list json) :=
  match v with
  | JList items => Ok items
  | JDict pairs => Ok (map (fun kv => JStr (fst kv)) pairs)
  | JStr s => Ok (map char_str (list_ascii_of_string s))
  | JNone | JBool _ | JInt _ | JFloat _ => Raise TypeError
  end.

(** *** [v == "literal"] *)

Definition str_eq (v : json) (lit : string) : bool :=
  match v with
  | JStr s => String.eqb s lit
  | _ => false
  end.

(** *** Equality and enumeration of values

    Event ids are values taken from the payload and serve as keys of the
    session's table, so [json] needs decidable equality and an injection
    into a countable type. *)

Definition json_leaf : Type := (bool + Z + string)%type.

Fixpoint json_enc (v : json) : gen_tree json_leaf :=
  match v with
  | JNone => GenNode 0 []
  | JBool b => GenLeaf (inl (inl b))
  | JInt z => GenLeaf (inl (inr z))
  | JFloat bits => GenNode 1 [GenLeaf (inl (inr bits))]
  | JStr s => GenLeaf (inr s)
  | JList items => GenNode 2 (map json_enc items)
  | JDict pairs =>
      GenNode 3 (map (fun kv => let '(k, x) := kv in
                                GenNode 4 [GenLeaf (inr k); json_enc x]) pairs)
  end.

Fixpoint json_dec (t : gen_tree json_leaf) : json :=
  match t with
  | GenLeaf (inl (inl b)) => JBool b
  | GenLeaf (inl (inr z)) => JInt z
  | GenLeaf (inr s) => JStr s
  | GenNode 1 [GenLeaf (inl (inr bits))] => JFloat bits
  | GenNode 2 ts => JList (map json_dec ts)
  | GenNode 3 ts =>
      JDict (map (fun t' => match t' with
                            | GenNode _ [GenLeaf (inr k); x] => (k, json_dec x)
                            | _ => (EmptyString, JNone)
                            end) ts)
  | _ => JNone
  end.

(** Structural induction that reaches the values nested in lists and dicts. *)
Fixpoint json_nested_ind (P : json -> Prop)
  (HNone : P JNone) (HBool : forall b, P (JBool b)) (HInt : forall z, P (JInt z))
  (HFloat : forall bits, P (JFloat bits)) (HStr : forall s, P (JStr s))
  (HList : forall items, Forall P items -> P (JList items))
  (HDict : forall pairs, Forall (fun kv => P (snd kv)) pairs -> P (JDict pairs))
  (v : json) : P v :=
  let rec := json_nested_ind P HNone HBool HInt HFloat HStr HList HDict in
  match v with
  | JNone => HNone
  | JBool b => HBool b
  | JInt z => HInt z
  | JFloat bits => HFloat bits
  | JStr s => HStr s
  | JList items =>
      HList items
        ((fix go (l : list json) : Forall P l :=
            match l with
            | [] => List.Forall_nil P
            | x :: l' => @List.Forall_cons _ P x l' (rec x) (go l')
            end) items)
  | JDict pairs =>
      HDict pairs
        ((fix go (l : list (string * json)) : Forall (fun kv => P (snd kv)) l :=
            match l with
            | [] => List.Forall_nil _
            | (k, x) :: l' =>
                @List.Forall_cons _ (fun kv => P (snd kv)) (k, x) l' (rec x) (go l')
            end) pairs)
  end.

Lemma json_dec_enc (v : json) : json_dec (json_enc v) = v.
Proof.
  induction v as [| | | | |items IH|pairs IH] using json_nested_ind; simpl; try reflexivity.
  - f_equal. rewrite map_map.
    induction IH as [|x l Hx _ IHl]; simpl; [reflexivity|].
    now rewrite Hx, IHl.
  - f_equal. rewrite map_map.
    induction IH as [|[k x] l Hx _ IHl]; simpl; [reflexivity|].
    simpl in Hx. now rewrite Hx, IHl.
Qed.

#[global] Instance json_eq_dec : EqDecision json.
Proof.
  intros x y. destruct (decide (json_enc x = json_enc y)) as [E|N].
  - left. rewrite <- (json_dec_enc x), <- (json_dec_enc y). now rewrite E.
  - right. intros ->. now apply N.
Defined.

#[global] Instance json_countable : Countable json :=
  inj_countable' json_enc json_dec json_dec_enc.

(** ** Collaborators of the decoders *)

(** Modelled from the spec: [sc_client.constants.common] is not among the
    sources; the field names and the link-content tags are the fixed wire
    names the spec lists (status, payload, type, value, aliases, addrs and
    the tags string, int, binary, float). *)
Module common.
Definition STATUS : string := "status".
Definition PAYLOAD : string := "payload".
Definition TYPE : string := "type".
Definition VALUE : string := "value".
Definition ALIASES : string := "aliases".
Definition ADDRS : string := "addrs".
Definition STRING : string := "string".
Definition INT : string := "int".
Definition BINARY : string := "binary".
Definition FLOAT : string := "float".
End common.

(** Modelled from the spec: the [Response] type of [sc_client.models] is
    not among the sources; the envelope is the decoded JSON object, read
    with [response.get(field)], so an absent field reads as [None]. *)
Definition Response : Type := list (string * json).

(** Modelled from the spec: [ScAddr] of [sc_client.models], an immutable
    wrapper of the raw identifier; the constructor stores its argument. *)
Record ScAddr : Type := mkScAddr { addr_value : json }.

(** Modelled from the spec: the closed enumeration of link content kinds. *)
Inductive ScLinkContentType : Type := STRING | INT | BINARY | FLOAT.

(** Modelled from the spec: [ScLinkContent] of [sc_client.models], the
    value together with the integer code of its kind. *)
Record ScLinkContent : Type := mkScLinkContent {
  data : json;
  content_type : Z
}.

(** Modelled from the spec: [ScTemplateResult] of [sc_client.models]. *)
Record ScTemplateResult : Type := mkScTemplateResult {
  addrs : list ScAddr;
  aliases : json
}.

(** Modelled from the spec: [ScEvent] of [sc_client.models]; the event type
    and the callback are opaque to the decoders. *)
Record ScEvent (EventType Callback : Type) : Type := mkScEvent {
  id : json;
  event_type : EventType;
  callback : Callback
}.
Arguments mkScEvent {EventType Callback} id event_type callback.
Arguments id {EventType Callback} _.
Arguments event_type {EventType Callback} _.
Arguments callback {EventType Callback} _.

(** The session's table of events, keyed by event id. *)
Abbreviation Registry E C := (gmap json (ScEvent E C)).

(** Code that runs against the session: it may raise, and the table keeps
    whatever was written before the exception. *)
Definition Session (E C A : Type) : Type :=
  Registry E C -> outcome A * Registry E C.

Definition sret {E C A : Type} (a : A) : Session E C A :=
  fun reg => (Ok a, reg).

Definition sbind {E C A B : Type} (m : Session E C A) (k : A -> Session E C B)
  : Session E C B :=
  fun reg =>
    match m reg with
    | (Ok a, reg') => k a reg'
    | (Raise e, reg') => (Raise e, reg')
    end.

Definition slift {E C A : Type} (m : outcome A) : Session E C A :=
  fun reg => (m, reg).

Notation "'do' x <- m ; k" := (sbind m (fun x => k))
  (at level 10, x name, m at level 200, k at level 200, only parsing).

Module session.
(** Modelled from the spec: [sc_client.session] is not among the sources;
    [set_event] registers the event under its id in the process-wide map
    keyed by event id, [drop_event] unregisters the id. *)
Definition set_event {E C : Type} (sc_event : ScEvent E C) : Session E C unit :=
  fun reg => (Ok tt, <[id sc_event := sc_event]> reg).

Definition drop_event {E C : Type} (event_id : json) : Session E C unit :=
  fun reg => (Ok tt, delete event_id reg).
End session.

(** ** The response processors *)

Definition wrap_addrs (raw : list json) : list ScAddr := map mkScAddr raw.

Definition CreateElementsResponseProcessor (response : Response)
  : outcome (list ScAddr) :=
  let* addr_values := iterate (dict_get response common.PAYLOAD) in
  Ok (wrap_addrs addr_values).

Section LinkContent.

(** The [.value] of each member of [ScLinkContentType]; the enumeration
    is declared in [sc_client.models]. *)
Variable ScLinkContentType_value : ScLinkContentType -> Z.

Definition GetLinkContentResponseProcessor (response : Response)
  : outcome ScLinkContent :=
  let* response_payload := subscript (dict_get response common.PAYLOAD) 0 in
  let* str_type := py_get response_payload common.TYPE in
  let content_type :=
    if str_eq str_type common.STRING then ScLinkContentType_value STRING
    else if str_eq str_type common.INT then ScLinkContentType_value INT
    else if str_eq str_type common.BINARY then ScLinkContentType_value BINARY
    else if str_eq str_type common.FLOAT then ScLinkContentType_value FLOAT
    else 0 in
  let* value := py_get response_payload common.VALUE in
  Ok (mkScLinkContent value content_type).

End LinkContent.

(** What [GetLinksByContentResponseProcessor] hands back: the decoded
    address lists, or the payload object itself. *)
Inductive LinksByContent : Type :=
| LinkAddrs (addr_lists : list (list ScAddr))
| RawPayload (response_payload : json).

Definition GetLinksByContentResponseProcessor (response : Response)
  : outcome LinksByContent :=
  let response_payload := dict_get response common.PAYLOAD in
  if truthy response_payload then
    let* addr_lists := iterate response_payload in
    let* decoded :=
      omap (fun addr_list =>
              let* addr_values := iterate addr_list in
              Ok (wrap_addrs addr_values)) addr_lists in
    Ok (LinkAddrs decoded)
  else Ok (RawPayload response_payload).

(** What [ResolveKeynodesResponseProcessor] hands back: the decoded
    addresses, or the response object itself. *)
Inductive Keynodes : Type :=
| KeynodeAddrs (keynodes : list ScAddr)
| WholeResponse (response : Response).

Definition ResolveKeynodesResponseProcessor (response : Response)
  : outcome Keynodes :=
  let response_payload := dict_get response common.PAYLOAD in
  if truthy response_payload then
    let* addr_values := iterate response_payload in
    Ok (KeynodeAddrs (wrap_addrs addr_values))
  else Ok (WholeResponse response).

(** The [for addrs_list in all_addrs] loop, [result] being the list built
    so far. *)
Fixpoint template_search_loop (aliases : json) (all_addrs : list json)
  (result : list ScTemplateResult) : outcome (list ScTemplateResult) :=
  match all_addrs with
  | [] => Ok result
  | addrs_list :: rest =>
      let* addr_values := iterate addrs_list in
      template_search_loop aliases rest
        (result ++ [mkScTemplateResult (wrap_addrs addr_values) aliases])
  end.

Definition TemplateSearchResponseProcessor (response : Response)
  : outcome (list ScTemplateResult) :=
  if truthy (dict_get response common.STATUS) then
    let response_payload := dict_get response common.PAYLOAD in
    let* aliases := py_get response_payload common.ALIASES in
    let* all_addrs := py_get response_payload common.ADDRS in
    let* addrs_lists := iterate all_addrs in
    template_search_loop aliases addrs_lists []
  else Ok [].

Section Events.

Context {EventType Callback : Type}.

Abbreviation Event := (ScEvent EventType Callback).

(** The [for count, event in enumerate(events)] loop from position [count]. *)
Fixpoint events_create_loop (response : Response) (count : nat)
  (events : list Event) (result : list Event)
  : Session EventType Callback (list Event) :=
  match events with
  | [] => sret result
  | event :: rest =>
      do command_id <- slift (subscript (dict_get response common.PAYLOAD) count);
      let sc_event := mkScEvent command_id (event_type event) (callback event) in
      do _ <- session.set_event sc_event;
      events_create_loop response (S count) rest (result ++ [sc_event])
  end.

Definition EventsCreateResponseProcessor (response : Response)
  (events : list Event) : Session EventType Callback (list Event) :=
  events_create_loop response 0 events [].

Fixpoint events_destroy_loop (events : list Event)
  : Session EventType Callback unit :=
  match events with
  | [] => sret tt
  | event :: rest =>
      do _ <- session.drop_event (id event);
      events_destroy_loop rest
  end.

Definition EventsDestroyResponseProcessor (response : Response)
  (events : list Event) : Session EventType Callback json :=
  do _ <- events_destroy_loop events;
  sret (dict_get response common.STATUS).

(** *** Histories of event decodes

    The session runs one decode after another against the same table; a
    decode that raises leaves its writes in the table. *)
Inductive Step : Type :=
| CreateStep (response : Response) (events : list Event)
| DestroyStep (response : Response) (events : list Event).

Definition run_step (step : Step) (reg : Registry EventType Callback)
  : Registry EventType Callback :=
  match step with
  | CreateStep response events => snd (EventsCreateResponseProcessor response events reg)
  | DestroyStep response events => snd (EventsDestroyResponseProcessor response events reg)
  end.

Definition run (steps : list Step) (reg : Registry EventType Callback)
  : Registry EventType Callback :=
  foldl (fun reg step => run_step step reg) reg steps.

Definition ids_of (events : list Event) : gset json := list_to_set (map id events).

(** The ids the caller holds a subscription for: those handed back by a
    create decode that returned, until a destroy decode runs for them. *)
Definition known_step (step : Step) (reg : Registry EventType Callback)
  (known : gset json) : gset json :=
  match step with
  | CreateStep response events =>
      match fst (EventsCreateResponseProcessor response events reg) with
      | Ok created => known ∪ ids_of created
      | Raise _ => known
      end
  | DestroyStep _ events => known ∖ ids_of events
  end.

Fixpoint known_ids (steps : list Step) (reg : Registry EventType Callback)
  (known : gset json) : gset json :=
  match steps with
  | [] => known
  | step :: rest => known_ids rest (run_step step reg) (known_step step reg known)
  end.

(** *** Vocabulary of the statements about the table *)

(** The Subscription Event built at one position of the create loop. *)
Definition subscribe (command_id : json) (event : Event) : Event :=
  mkScEvent command_id (event_type event) (callback event).

(** The table after registering a sequence of events, first to last. *)
Definition register_all (created : list Event) (reg : Registry EventType Callback)
  : Registry EventType Callback :=
  foldl (fun reg sc_event => <[id sc_event := sc_event]> reg) reg created.

(** The table after unregistering the ids of a sequence of events. *)
Definition unregister_all (events : list Event) (reg : Registry EventType Callback)
  : Registry EventType Callback :=
  foldl (fun reg event => delete (id event) reg) reg events.

(** Every key of the table is the id of the event stored under it. *)
Definition keyed_by_id (reg : Registry EventType Callback) : Prop :=
  forall (k : json) (held : Event), reg !! k = Some held -> id held = k.

(** A step whose decoder returns instead of raising. *)
Definition returns (step : Step) : bool :=
  match step with
  | CreateStep response events =>
      match fst (EventsCreateResponseProcessor response events ∅) with
      | Ok _ => true
      | Raise _ => false
      end
  | DestroyStep _ _ => true
  end.

(** The subscriptions the caller holds: the events handed back by a
    create decode that returned, each until a destroy decode runs for its
    id. *)
Definition live_step (step : Step) (reg : Registry EventType Callback)
  (live : list Event) : list Event :=
  match step with
  | CreateStep response events =>
      match fst (EventsCreateResponseProcessor response events reg) with
      | Ok created => live ++ created
      | Raise _ => live
      end
  | DestroyStep _ events =>
      filter (fun subscription => id subscription ∉ map id events) live
  end.

Fixpoint live_subscriptions (steps : list Step) (reg : Registry EventType Callback)
  (live : list Event) : list Event :=
  match steps with
  | [] => live
  | step :: rest => live_subscriptions rest (run_step step reg) (live_step step reg live)
  end.

(** A create decode is acknowledged with fresh ids when the ids of the
    events it returns are pairwise distinct and none of them is a key of
    the table it starts from. *)
Definition fresh_step (step : Step) (reg : Registry EventType Callback) : bool :=
  match step with
  | CreateStep response events =>
      match fst (EventsCreateResponseProcessor response events reg) with
      | Ok created =>
          bool_decide (NoDup (map id created))
          && forallb (fun sc_event =>
                        match reg !! id sc_event with
                        | None => true
                        | Some _ => false
                        end) created
      | Raise _ => true
      end
  | DestroyStep _ _ => true
  end.

Fixpoint fresh_ids (steps : list Step) (reg : Registry EventType Callback) : bool :=
  match steps with
  | [] => true
  | step :: rest => fresh_step step reg && fresh_ids rest (run_step step reg)
  end.

(** Every event the table holds is one the caller holds. *)
Definition held_are_live (reg : Registry EventType Callback) (live : list Event) : Prop :=
  forall (k : json) (held : Event), reg !! k = Some held -> held ∈ live.

(** Every event the caller holds is stored under its id. *)
Definition live_are_stored (reg : Registry EventType Callback) (live : list Event)
  : Prop :=
  forall subscription : Event,
    subscription ∈ live -> reg !! id subscription = Some subscription.

End Events.

(** ** The remaining processors *)

(** Modelled from the spec: [ScType] of [sc_client.constants.sc_types], an
    immutable wrapper of the raw type code; the constructor stores its
    argument. *)
Record ScType : Type := mkScType { type_value : json }.

Definition CheckElementsResponseProcessor (response : Response)
  : outcome (list ScType) :=
  let* type_values := iterate (dict_get response common.PAYLOAD) in
  Ok (map mkScType type_values).

Definition DeleteElementsResponseProcessor (response : Response) : json :=
  dict_get response common.STATUS.

Definition SetLinkContentResponseProcessor (response : Response) : json :=
  dict_get response common.STATUS.

(** [result] starts as [None] and is replaced when the status is truthy. *)
Definition TemplateGenerateResponseProcessor (response : Response)
  : outcome (option ScTemplateResult) :=
  if truthy (dict_get response common.STATUS) then
    let response_payload := dict_get response common.PAYLOAD in
    let* aliases := py_get response_payload common.ALIASES in
    let* addrs_list := py_get response_payload common.ADDRS in
    let* addr_values := iterate addrs_list in
    Ok (Some (mkScTemplateResult (wrap_addrs addr_values) aliases))
  else Ok None.

(** The values Python refuses to iterate over: [None], booleans, numbers. *)
Definition scalar (v : json) : bool :=
  match v with
  | JNone | JBool _ | JInt _ | JFloat _ => true
  | JStr _ | JList _ | JDict _ => false
  end.

(** The keys of a dict, in order. *)
Definition keys (pairs : list (string * json)) : list string := map fst pairs.

(** ** Sample inputs *)

(** The codes of the kinds used in the examples. *)
Definition example_kind_value (kind : ScLinkContentType) : Z :=
  match kind with
  | INT => 1
  | FLOAT => 2
  | STRING => 3
  | BINARY => 4
  end.

(** Two descriptors as a caller submits them: no id yet, the event type
    and the callback named by strings. *)
Definition on_add : ScEvent string string := mkScEvent JNone "add_output_edge" "on_add".
Definition on_remove : ScEvent string string := mkScEvent JNone "remove_element" "on_remove".

Definition acknowledged_two : Response :=
  [("status", JBool true); ("payload", JList [JInt 101; JInt 102])].

Definition acknowledged_one : Response :=
  [("status", JBool true); ("payload", JList [JInt 101])].

(** An acknowledged subscription of two events, then the unsubscription
    of the first, reported as failed by the server. *)
Definition create_then_destroy : list (@Step string string) :=
  [CreateStep acknowledged_two [on_add; on_remove];
   DestroyStep [("status", JBool false)] [mkScEvent (JInt 101) "add_output_edge" "on_add"]].

(** A subscription of two events acknowledged with a single id. *)
Definition create_short : list (@Step string string) :=
  [CreateStep acknowledged_one [on_add; on_remove]].

(** A subscription of two events acknowledged with the same id twice. *)
Definition acknowledged_repeated : Response :=
  [("status", JBool true); ("payload", JList [JInt 101; JInt 101])].

Definition create_repeated : list (@Step string string) :=
  [CreateStep acknowledged_repeated [on_add; on_remove]].

(** Two subscriptions of one event each, both acknowledged with id 101. *)
Definition create_again : list (@Step string string) :=
  [CreateStep acknowledged_one [on_add]; CreateStep acknowledged_one [on_remove]].

(** ** Properties of the payload decoders *)

Lemma omap_wrap_rows (rows : list (list json)) :
  omap (fun addr_list =>
          let* addr_values := iterate addr_list in
          Ok (wrap_addrs addr_values)) (map JList rows)
  = Ok (map (map mkScAddr) rows).
Proof.
  induction rows as [|row rows IH]; simpl; [reflexivity|].
  rewrite IH. reflexivity.
Qed.

Lemma template_search_loop_rows (aliases : json) (rows : list (list json))
  (result : list ScTemplateResult) :
  template_search_loop aliases (map JList rows) result
  = Ok (result ++ map (fun row => mkScTemplateResult (map mkScAddr row) aliases) rows)%list.
Proof.
  revert result. induction rows as [|row rows IH]; intros result; simpl.
  - now rewrite app_nil_r.
  - rewrite IH. now rewrite <- app_assoc.
Qed.

Lemma truthy_nonempty_list (items : list json) :
  items <> [] -> truthy (JList items) = true.
Proof. destruct items; [congruence|reflexivity]. Qed.

(** C9. Create-elements on a payload that is a sequence of raw numeric ids
    gives one Element Address per id, in the same order, and the value read
    back from the address at each position is the raw id at that position. *)
Theorem create_elements_round_trip (response : Response) (ids : list Z) :
  dict_get response common.PAYLOAD = JList (map JInt ids) ->
  exists decoded : list ScAddr,
    CreateElementsResponseProcessor response = Ok decoded /\
    length decoded = length ids /\
    (forall i : nat, addr_value <$> decoded !! i = JInt <$> ids !! i).
Proof.
  intros Hpayload. unfold CreateElementsResponseProcessor. rewrite Hpayload. simpl.
  eexists; split; [reflexivity|]. unfold wrap_addrs. split.
  - now rewrite !length_map.
  - intros i. rewrite !list_lookup_fmap. now destruct (ids !! i).
Qed.

Lemma create_elements_round_trip_witness :
  exists decoded : list ScAddr,
    CreateElementsResponseProcessor
      [("status", JBool true); ("payload", JList (map JInt [7; 9; 7]))] = Ok decoded /\
    length decoded = length [7; 9; 7] /\
    (forall i : nat, addr_value <$> decoded !! i = JInt <$> [7; 9; 7] !! i).
Proof.
  apply (create_elements_round_trip
           [("status", JBool true); ("payload", JList (map JInt [7; 9; 7]))] [7; 9; 7]).
  reflexivity.
Defined.

(** The falsy branch of resolve-keynodes hands back the response object. *)
Lemma resolve_keynodes_falsy_payload (response : Response) :
  truthy (dict_get response common.PAYLOAD) = false ->
  ResolveKeynodesResponseProcessor response = Ok (WholeResponse response).
Proof.
  intros Hfalsy. unfold ResolveKeynodesResponseProcessor. now rewrite Hfalsy.
Qed.

(** The truthy branch of resolve-keynodes wraps each raw id, in order. *)
Lemma resolve_keynodes_nonempty_payload (response : Response) (raw : list json) :
  raw <> [] ->
  dict_get response common.PAYLOAD = JList raw ->
  ResolveKeynodesResponseProcessor response = Ok (KeynodeAddrs (map mkScAddr raw)).
Proof.
  intros Hne Hpayload. unfold ResolveKeynodesResponseProcessor.
  rewrite Hpayload, (truthy_nonempty_list raw Hne). reflexivity.
Qed.

(** C1. On the response [{"status": true, "payload": []}] resolve-keynodes
    returns the whole response object, a non-empty dict that tests true,
    and not the empty payload: the result is not an empty sequence. *)
Theorem resolve_keynodes_empty_payload_returns_response :
  let response : Response := [("status", JBool true); ("payload", JList [])] in
  ResolveKeynodesResponseProcessor response = Ok (WholeResponse response) /\
  truthy (JDict response) = true /\
  ResolveKeynodesResponseProcessor response <> Ok (KeynodeAddrs []).
Proof.
  simpl. repeat split. discriminate.
Qed.

(** C8. Links-by-content returns a falsy (empty or absent) payload as it
    is, and decodes a non-empty sequence of sequences of raw ids into the
    sequence of sequences of Element Address of the same shape and order. *)
Theorem links_by_content_decoding (response : Response) :
  (truthy (dict_get response common.PAYLOAD) = false ->
   GetLinksByContentResponseProcessor response
   = Ok (RawPayload (dict_get response common.PAYLOAD))) /\
  (forall rows : list (list json),
     rows <> [] ->
     dict_get response common.PAYLOAD = JList (map JList rows) ->
     GetLinksByContentResponseProcessor response
     = Ok (LinkAddrs (map (map mkScAddr) rows))).
Proof.
  unfold GetLinksByContentResponseProcessor. split.
  - intros Hfalsy. now rewrite Hfalsy.
  - intros rows Hne Hpayload. rewrite Hpayload.
    rewrite truthy_nonempty_list by (destruct rows; [congruence|discriminate]).
    simpl. now rewrite omap_wrap_rows.
Qed.

Lemma links_by_content_decoding_witness :
  GetLinksByContentResponseProcessor [("status", JBool true)] = Ok (RawPayload JNone) /\
  GetLinksByContentResponseProcessor [("status", JBool true); ("payload", JList [])]
  = Ok (RawPayload (JList [])) /\
  GetLinksByContentResponseProcessor
    [("payload", JList [JList [JInt 1; JInt 2]; JList []; JList [JInt 3]])]
  = Ok (LinkAddrs [[mkScAddr (JInt 1); mkScAddr (JInt 2)]; []; [mkScAddr (JInt 3)]]).
Proof.
  split; [|split].
  - apply (proj1 (links_by_content_decoding [("status", JBool true)])). reflexivity.
  - apply (proj1 (links_by_content_decoding
                    [("status", JBool true); ("payload", JList [])])). reflexivity.
  - apply (proj2 (links_by_content_decoding
                    [("payload", JList [JList [JInt 1; JInt 2]; JList []; JList [JInt 3]])])
             [[JInt 1; JInt 2]; []; [JInt 3]]).
    + discriminate.
    + reflexivity.
Defined.

(** C5. Template search returns the empty sequence whenever the status
    flag is false, whatever the payload is; when the flag is true and the
    payload carries [addrs] as a sequence of sequences, it returns one
    Template Result per inner sequence, in order, each holding the wrapped
    addresses of that sequence and the one [aliases] value of the payload. *)
Theorem template_search_decoding (response : Response) :
  (truthy (dict_get response common.STATUS) = false ->
   TemplateSearchResponseProcessor response = Ok []) /\
  (forall (fields : list (string * json)) (rows : list (list json)),
     truthy (dict_get response common.STATUS) = true ->
     dict_get response common.PAYLOAD = JDict fields ->
     dict_get fields common.ADDRS = JList (map JList rows) ->
     TemplateSearchResponseProcessor response
     = Ok (map (fun row => mkScTemplateResult (map mkScAddr row)
                             (dict_get fields common.ALIASES)) rows)).
Proof.
  unfold TemplateSearchResponseProcessor. split.
  - intros Hstatus. now rewrite Hstatus.
  - intros fields rows Hstatus Hpayload Haddrs.
    rewrite Hstatus, Hpayload. simpl. rewrite Haddrs. simpl.
    now rewrite template_search_loop_rows.
Qed.

Lemma template_search_decoding_witness :
  TemplateSearchResponseProcessor [("status", JBool false); ("payload", JInt 5)] = Ok [] /\
  TemplateSearchResponseProcessor
    [("status", JBool true);
     ("payload", JDict [("aliases", JDict [("x", JInt 0)]);
                        ("addrs", JList [JList [JInt 10; JInt 20];
                                         JList [JInt 30; JInt 40]])])]
  = Ok [mkScTemplateResult [mkScAddr (JInt 10); mkScAddr (JInt 20)] (JDict [("x", JInt 0)]);
        mkScTemplateResult [mkScAddr (JInt 30); mkScAddr (JInt 40)] (JDict [("x", JInt 0)])].
Proof.
  split.
  - apply (proj1 (template_search_decoding
                    [("status", JBool false); ("payload", JInt 5)])). reflexivity.
  - apply (proj2 (template_search_decoding
             [("status", JBool true);
              ("payload", JDict [("aliases", JDict [("x", JInt 0)]);
                                 ("addrs", JList [JList [JInt 10; JInt 20];
                                                  JList [JInt 30; JInt 40]])])])
             [("aliases", JDict [("x", JInt 0)]);
              ("addrs", JList [JList [JInt 10; JInt 20]; JList [JInt 30; JInt 40]])]
             [[JInt 10; JInt 20]; [JInt 30; JInt 40]]); reflexivity.
Defined.

Section LinkContentProperties.

Variable value_of : ScLinkContentType -> Z.

(** C4. When the first payload element is an object whose type tag is a
    string, link-content decoding does not raise: it returns the value
    field as it is, with the kind of STRING for "string", of INT for "int",
    of BINARY for "binary", of FLOAT for "float", and 0 for any other tag. *)
Theorem link_content_tag_mapping (response : Response)
  (fields : list (string * json)) (others : list json) (tag : string) :
  dict_get response common.PAYLOAD = JList (JDict fields :: others) ->
  dict_get fields common.TYPE = JStr tag ->
  exists kind : Z,
    GetLinkContentResponseProcessor value_of response
    = Ok (mkScLinkContent (dict_get fields common.VALUE) kind) /\
    (tag = "string" -> kind = value_of STRING) /\
    (tag = "int" -> kind = value_of INT) /\
    (tag = "binary" -> kind = value_of BINARY) /\
    (tag = "float" -> kind = value_of FLOAT) /\
    (tag <> "string" -> tag <> "int" -> tag <> "binary" -> tag <> "float" -> kind = 0).
Proof.
  intros Hpayload Htag. unfold GetLinkContentResponseProcessor.
  rewrite Hpayload. simpl. rewrite Htag. simpl.
  unfold common.STRING, common.INT, common.BINARY, common.FLOAT.
  eexists; split; [reflexivity|].
  destruct (String.eqb_spec tag "string") as [->|Hs]; simpl.
  { repeat split; intros; congruence. }
  destruct (String.eqb_spec tag "int") as [->|Hi]; simpl.
  { repeat split; intros; congruence. }
  destruct (String.eqb_spec tag "binary") as [->|Hb]; simpl.
  { repeat split; intros; congruence. }
  destruct (String.eqb_spec tag "float") as [->|Hf]; simpl.
  { repeat split; intros; congruence. }
  repeat split; intros; congruence.
Qed.

(** C10. Two envelopes whose first payload elements are objects with the
    same type field and the same value field decode to the same link
    content, whatever their status flags and remaining payload elements. *)
Theorem link_content_noninterference (response1 response2 : Response)
  (fields1 fields2 : list (string * json)) (others1 others2 : list json) :
  dict_get response1 common.PAYLOAD = JList (JDict fields1 :: others1) ->
  dict_get response2 common.PAYLOAD = JList (JDict fields2 :: others2) ->
  dict_get fields1 common.TYPE = dict_get fields2 common.TYPE ->
  dict_get fields1 common.VALUE = dict_get fields2 common.VALUE ->
  GetLinkContentResponseProcessor value_of response1
  = GetLinkContentResponseProcessor value_of response2.
Proof.
  intros H1 H2 Htype Hvalue. unfold GetLinkContentResponseProcessor.
  rewrite H1, H2. simpl. now rewrite Htype, Hvalue.
Qed.

End LinkContentProperties.

Lemma link_content_tag_mapping_witness :
  exists kind : Z,
    GetLinkContentResponseProcessor example_kind_value
      [("status", JBool true);
       ("payload", JList [JDict [("value", JStr "abc"); ("type", JStr "unknown_tag")]])]
    = Ok (mkScLinkContent (JStr "abc") kind) /\
    ("unknown_tag" = "string" -> kind = 3) /\
    ("unknown_tag" = "int" -> kind = 1) /\
    ("unknown_tag" = "binary" -> kind = 4) /\
    ("unknown_tag" = "float" -> kind = 2) /\
    ("unknown_tag" <> "string" -> "unknown_tag" <> "int" ->
     "unknown_tag" <> "binary" -> "unknown_tag" <> "float" -> kind = 0).
Proof.
  apply (link_content_tag_mapping example_kind_value
           [("status", JBool true);
            ("payload", JList [JDict [("value", JStr "abc"); ("type", JStr "unknown_tag")]])]
           [("value", JStr "abc"); ("type", JStr "unknown_tag")] [] "unknown_tag");
    reflexivity.
Defined.

Lemma link_content_noninterference_witness :
  GetLinkContentResponseProcessor example_kind_value
    [("status", JBool true);
     ("payload", JList [JDict [("type", JStr "int"); ("value", JInt 42)]])]
  = GetLinkContentResponseProcessor example_kind_value
      [("payload", JList [JDict [("value", JInt 42); ("type", JStr "int"); ("extra", JNone)];
                          JStr "ignored"]);
       ("status", JBool false)].
Proof.
  apply (link_content_noninterference example_kind_value
           [("status", JBool true);
            ("payload", JList [JDict [("type", JStr "int"); ("value", JInt 42)]])]
           [("payload", JList [JDict [("value", JInt 42); ("type", JStr "int"); ("extra", JNone)];
                               JStr "ignored"]);
            ("status", JBool false)]
           [("type", JStr "int"); ("value", JInt 42)]
           [("value", JInt 42); ("type", JStr "int"); ("extra", JNone)]
           [] [JStr "ignored"]);
    reflexivity.
Defined.

(** ** Properties of the event decoders *)

Section EventsProperties.

Context {EventType Callback : Type}.

Abbreviation Event := (ScEvent EventType Callback).
Abbreviation Table := (gmap json (ScEvent EventType Callback)).

Lemma events_create_loop_acknowledged (response : Response) (ids : list json) :
  dict_get response common.PAYLOAD = JList ids ->
  forall (events : list Event) (count : nat) (result : list Event) (reg : Table),
    (count + length events <= length ids)%nat ->
    events_create_loop response count events result reg
    = (Ok (result ++ zip_with subscribe (drop count ids) events)%list,
       register_all (zip_with subscribe (drop count ids) events) reg).
Proof.
  intros Hpayload. induction events as [|event rest IH]; intros count result reg Hlen.
  - simpl. destruct (drop count ids); simpl; now rewrite app_nil_r.
  - simpl in Hlen. simpl. unfold sbind, slift. rewrite Hpayload. simpl.
    destruct (lookup_lt_is_Some_2 ids count ltac:(lia)) as [command_id Hid].
    rewrite Hid. unfold session.set_event.
    rewrite (IH (S count)) by lia.
    rewrite (drop_S ids command_id count Hid). simpl.
    now rewrite <- app_assoc.
Qed.

Lemma events_create_loop_short (response : Response) (ids : list json) :
  dict_get response common.PAYLOAD = JList ids ->
  forall (events : list Event) (count : nat) (result : list Event) (reg : Table),
    (count <= length ids < count + length events)%nat ->
    fst (events_create_loop response count events result reg) = Raise IndexError.
Proof.
  intros Hpayload. induction events as [|event rest IH]; intros count result reg Hlen.
  - simpl in Hlen. lia.
  - simpl in Hlen. simpl. unfold sbind, slift. rewrite Hpayload. simpl.
    destruct (ids !! count) as [command_id|] eqn:Hid.
    + unfold session.set_event. apply IH.
      apply lookup_lt_Some in Hid. lia.
    + reflexivity.
Qed.

Lemma register_all_lookup (created : list Event) :
  forall (reg : Table) (sc_event : Event),
    sc_event ∈ created -> is_Some (register_all created reg !! id sc_event).
Proof.
  induction created as [|first rest IH] using rev_ind; intros reg sc_event Hin.
  - inversion Hin.
  - unfold register_all. rewrite foldl_app. simpl.
    destruct (decide (id first = id sc_event)) as [E|N].
    + rewrite E, lookup_insert_eq. eauto.
    + rewrite lookup_insert_ne by exact N.
      apply elem_of_app in Hin as [Hin|Hin].
      * now apply IH.
      * apply list_elem_of_singleton in Hin. congruence.
Qed.

Lemma register_all_dom (created : list Event) :
  forall reg : Table, dom (register_all created reg) = dom reg ∪ ids_of created.
Proof.
  unfold ids_of.
  induction created as [|first rest IH]; intros reg; simpl.
  - set_solver.
  - unfold register_all in *. simpl. rewrite IH, dom_insert_L. set_solver.
Qed.

Lemma register_all_keyed (created : list Event) :
  forall reg : Table, keyed_by_id reg -> keyed_by_id (register_all created reg).
Proof.
  induction created as [|first rest IH]; intros reg Hreg; simpl; [exact Hreg|].
  apply IH. intros k held. rewrite lookup_insert.
  case_decide as Hk; [|apply Hreg].
  intros [= <-]. exact Hk.
Qed.

Lemma events_destroy_loop_spec (events : list Event) :
  forall reg : Table,
    events_destroy_loop events reg = (Ok tt, unregister_all events reg).
Proof.
  induction events as [|event rest IH]; intros reg; simpl; [reflexivity|].
  unfold sbind, session.drop_event. now rewrite IH.
Qed.

Lemma unregister_all_lookup (events : list Event) :
  forall (reg : Table) (k : json),
    unregister_all events reg !! k
    = if decide (k ∈ map id events) then None else reg !! k.
Proof.
  induction events as [|event rest IH]; intros reg k.
  - destruct (decide (k ∈ map id [])) as [Hin|_]; [inversion Hin|reflexivity].
  - change (unregister_all (event :: rest) reg)
      with (unregister_all rest (delete (id event) reg)).
    rewrite IH, lookup_delete, fmap_cons.
    repeat case_decide; try reflexivity; exfalso; set_solver.
Qed.

Lemma unregister_all_dom (events : list Event) :
  forall reg : Table, dom (unregister_all events reg) = dom reg ∖ ids_of events.
Proof.
  unfold ids_of.
  induction events as [|event rest IH]; intros reg; simpl.
  - set_solver.
  - unfold unregister_all in *. simpl. rewrite IH, dom_delete_L. set_solver.
Qed.

Lemma unregister_all_keyed (events : list Event) :
  forall reg : Table, keyed_by_id reg -> keyed_by_id (unregister_all events reg).
Proof.
  intros reg Hreg k held. rewrite unregister_all_lookup.
  case_decide; [discriminate|apply Hreg].
Qed.

Lemma events_create_loop_effect (response : Response) (events : list Event) :
  forall (count : nat) (result : list Event) (reg : Table),
  exists new : list Event,
    snd (events_create_loop response count events result reg) = register_all new reg /\
    forall created : list Event,
      fst (events_create_loop response count events result reg) = Ok created ->
      created = (result ++ new)%list.
Proof.
  induction events as [|event rest IH]; intros count result reg; simpl.
  - exists []. split; [reflexivity|]. intros created [= <-]. now rewrite app_nil_r.
  - unfold sbind, slift.
    destruct (subscript (dict_get response common.PAYLOAD) count) as [command_id|e].
    + unfold session.set_event.
      destruct (IH (S count)
                  (result ++ [mkScEvent command_id (event_type event) (callback event)])%list
                  (<[command_id := mkScEvent command_id (event_type event) (callback event)]> reg))
        as (new & Hreg & Hcreated).
      exists (mkScEvent command_id (event_type event) (callback event) :: new).
      split; [exact Hreg|].
      intros created Hok. rewrite (Hcreated created Hok). now rewrite <- app_assoc.
    + exists []. split; [reflexivity|]. intros created [=].
Qed.

Lemma events_create_loop_outcome (response : Response) (events : list Event) :
  forall (count : nat) (result : list Event) (reg reg' : Table),
    fst (events_create_loop response count events result reg)
    = fst (events_create_loop response count events result reg').
Proof.
  induction events as [|event rest IH]; intros count result reg reg'; simpl.
  - reflexivity.
  - unfold sbind, slift.
    destruct (subscript (dict_get response common.PAYLOAD) count) as [command_id|e].
    + unfold session.set_event. apply IH.
    + reflexivity.
Qed.

(** C7. When the payload is a sequence of at least N identifiers, events
    create on N descriptors returns N Subscription Events; the one at
    position i carries the i-th identifier with the event type and the
    callback of the i-th descriptor, and the id of every returned event is
    a key of the table afterwards. *)
Theorem events_create_decoding (response : Response) (ids : list json)
  (events : list Event) (reg : Table) :
  dict_get response common.PAYLOAD = JList ids ->
  (length events <= length ids)%nat ->
  exists (created : list Event) (reg' : Table),
    EventsCreateResponseProcessor response events reg = (Ok created, reg') /\
    length created = length events /\
    (forall (i : nat) (event : Event),
       events !! i = Some event ->
       exists command_id : json,
         ids !! i = Some command_id /\
         created !! i
         = Some (mkScEvent command_id (event_type event) (callback event))) /\
    (forall sc_event : Event, sc_event ∈ created -> is_Some (reg' !! id sc_event)).
Proof.
  intros Hpayload Hlen. unfold EventsCreateResponseProcessor.
  rewrite (events_create_loop_acknowledged response ids Hpayload) by (simpl; lia).
  rewrite drop_0. simpl.
  eexists _, _. split; [reflexivity|]. split; [|split].
  - rewrite length_zip_with. lia.
  - intros i event Hevent.
    destruct (lookup_lt_is_Some_2 ids i) as [command_id Hid].
    { apply lookup_lt_Some in Hevent. lia. }
    exists command_id. split; [exact Hid|].
    rewrite lookup_zip_with, Hid, Hevent. reflexivity.
  - intros sc_event Hin. now apply register_all_lookup.
Qed.

(** C6. Events destroy never raises: it returns the status field of the
    envelope, whatever it is, and afterwards no id of a supplied descriptor
    is a key of the table, the other keys being left as they were. *)
Theorem events_destroy_decoding (response : Response) (events : list Event)
  (reg : Table) :
  exists reg' : Table,
    EventsDestroyResponseProcessor response events reg
    = (Ok (dict_get response common.STATUS), reg') /\
    (forall event : Event, event ∈ events -> reg' !! id event = None) /\
    (forall k : json, k ∉ map id events -> reg' !! k = reg !! k).
Proof.
  exists (unregister_all events reg). unfold EventsDestroyResponseProcessor, sbind.
  rewrite events_destroy_loop_spec. split; [reflexivity|]. split.
  - intros event Hin. rewrite unregister_all_lookup.
    rewrite decide_True; [reflexivity|]. now apply list_elem_of_fmap_2.
  - intros k Hk. rewrite unregister_all_lookup. now rewrite decide_False.
Qed.

(** C2, as the code has it. When the payload is a sequence of fewer
    identifiers than there are descriptors, events create raises the
    IndexError of the subscription past the end of that sequence. *)
Theorem events_create_short_acknowledgement (response : Response)
  (ids : list json) (events : list Event) (reg : Table) :
  dict_get response common.PAYLOAD = JList ids ->
  (length ids < length events)%nat ->
  fst (EventsCreateResponseProcessor response events reg) = Raise IndexError.
Proof.
  intros Hpayload Hlen. unfold EventsCreateResponseProcessor.
  apply (events_create_loop_short response ids Hpayload). simpl. lia.
Qed.

Lemma run_step_keyed (step : Step) (reg : Table) :
  keyed_by_id reg -> keyed_by_id (run_step step reg).
Proof.
  intros Hreg. destruct step as [response events|response events]; simpl.
  - unfold EventsCreateResponseProcessor.
    destruct (events_create_loop_effect response events 0%nat [] reg) as (new & -> & _).
    now apply register_all_keyed.
  - unfold EventsDestroyResponseProcessor, sbind.
    rewrite events_destroy_loop_spec. simpl. now apply unregister_all_keyed.
Qed.

Lemma run_step_dom (step : Step) (reg : Table) (known : gset json) :
  returns step = true ->
  dom reg = known ->
  dom (run_step step reg) = known_step step reg known.
Proof.
  intros Hreturns <-. destruct step as [response events|response events]; simpl.
  - simpl in Hreturns. unfold EventsCreateResponseProcessor in *.
    rewrite (events_create_loop_outcome response events 0%nat [] ∅ reg) in Hreturns.
    destruct (events_create_loop_effect response events 0%nat [] reg)
      as (new & -> & Hcreated).
    destruct (fst (events_create_loop response 0 events [] reg)) as [created|e];
      [|discriminate].
    rewrite (Hcreated created eq_refl). simpl. apply register_all_dom.
  - unfold EventsDestroyResponseProcessor, sbind.
    rewrite events_destroy_loop_spec. simpl. apply unregister_all_dom.
Qed.

Lemma run_tracks_known_ids (steps : list Step) :
  forall (reg : Table) (known : gset json),
    forallb returns steps = true ->
    keyed_by_id reg ->
    dom reg = known ->
    keyed_by_id (run steps reg) /\ dom (run steps reg) = known_ids steps reg known.
Proof.
  induction steps as [|step rest IH]; intros reg known Hreturns Hkeyed Hdom; simpl.
  - split; assumption.
  - simpl in Hreturns. apply andb_prop in Hreturns as [Hstep Hrest].
    apply IH; [exact Hrest| |].
    + now apply run_step_keyed.
    + now apply run_step_dom.
Qed.

End EventsProperties.

(** ** Concrete runs *)

Lemma events_create_decoding_witness :
  exists (created : list (ScEvent string string)) (reg' : gmap json (ScEvent string string)),
    EventsCreateResponseProcessor acknowledged_two [on_add; on_remove] ∅
    = (Ok created, reg') /\
    length created = length [on_add; on_remove] /\
    (forall (i : nat) (event : ScEvent string string),
       [on_add; on_remove] !! i = Some event ->
       exists command_id : json,
         [JInt 101; JInt 102] !! i = Some command_id /\
         created !! i
         = Some (mkScEvent command_id (event_type event) (callback event))) /\
    (forall sc_event : ScEvent string string,
       sc_event ∈ created -> is_Some (reg' !! id sc_event)).
Proof.
  apply (events_create_decoding acknowledged_two [JInt 101; JInt 102]
           [on_add; on_remove] ∅).
  - reflexivity.
  - simpl. lia.
Defined.

Lemma events_create_short_acknowledgement_witness :
  fst (EventsCreateResponseProcessor acknowledged_one [on_add; on_remove] ∅)
  = Raise IndexError.
Proof.
  apply (events_create_short_acknowledgement acknowledged_one [JInt 101]
           [on_add; on_remove] ∅).
  - reflexivity.
  - simpl. lia.
Defined.

(** C2 fails as stated: with one identifier acknowledged for two
    descriptors the decoder reads position 1 of a one-element sequence and
    the error it ends with is the IndexError of that read, no other. *)
Lemma events_create_guard_counterexample :
  dict_get acknowledged_one common.PAYLOAD = JList [JInt 101] /\
  (length [JInt 101] < length [on_add; on_remove])%nat /\
  subscript (dict_get acknowledged_one common.PAYLOAD) 1 = Raise IndexError /\
  ~ (exists e : exn,
       e <> IndexError /\
       fst (EventsCreateResponseProcessor acknowledged_one [on_add; on_remove] ∅)
       = Raise e).
Proof.
  split; [reflexivity|]. split; [simpl; lia|]. split; [reflexivity|].
  intros (e & Hne & Hraise). vm_compute in Hraise. congruence.
Qed.

(** Unsubscribing the two events registered for ids 101 and 102, with the
    server reporting failure: the table is empty again and the decoder
    returns the false status. *)
Example events_destroy_failed_status :
  let reg := snd (EventsCreateResponseProcessor acknowledged_two [on_add; on_remove] ∅) in
  let subscribed : list (ScEvent string string) :=
    [mkScEvent (JInt 101) "add_output_edge" "on_add";
     mkScEvent (JInt 102) "remove_element" "on_remove"] in
  reg !! JInt 101 = Some (mkScEvent (JInt 101) "add_output_edge" "on_add") /\
  reg !! JInt 102 = Some (mkScEvent (JInt 102) "remove_element" "on_remove") /\
  EventsDestroyResponseProcessor [("status", JBool false)] subscribed reg
  = (Ok (JBool false), ∅).
Proof.
  vm_compute. repeat split.
Qed.

(** ** Edge behaviour of the payload decoders *)

Lemma dict_get_absent (pairs : list (string * json)) (key : string) :
  key ∉ keys pairs -> dict_get pairs key = JNone.
Proof.
  unfold keys. induction pairs as [|[k v] rest IH]; intros Habsent; simpl.
  - reflexivity.
  - destruct (String.eqb_spec k key) as [->|Hk].
    + exfalso. apply Habsent. simpl. left.
    + apply IH. intros Hin. apply Habsent. simpl. now right.
Qed.

Lemma iterate_scalar (v : json) :
  scalar v = true -> iterate v = Raise TypeError.
Proof. destruct v; simpl; intros H; (reflexivity || discriminate). Qed.

Lemma iterate_raises (v : json) (e : exn) :
  iterate v = Raise e -> e = TypeError /\ scalar v = true.
Proof. destruct v; simpl; intros [=]; subst; split; reflexivity. Qed.

Lemma iterate_returns (v : json) (items : list json) :
  iterate v = Ok items -> scalar v = false.
Proof. destruct v; simpl; intros [=]; reflexivity. Qed.

Lemma truthy_iterate_nonempty (v : json) (items : list json) :
  truthy v = true -> iterate v = Ok items -> items <> [].
Proof.
  destruct v as [| | | |s|l|d]; simpl; intros Ht [= <-].
  - destruct s; [discriminate|]. simpl. discriminate.
  - destruct l; [discriminate|]. discriminate.
  - destruct d; [discriminate|]. simpl. discriminate.
Qed.

Lemma falsy_iterate_empty (v : json) (items : list json) :
  truthy v = false -> iterate v = Ok items -> items = [].
Proof.
  destruct v as [| | | |s|l|d]; simpl; intros Ht [= <-].
  - destruct s; [reflexivity|discriminate].
  - destruct l; [reflexivity|discriminate].
  - destruct d; [reflexivity|discriminate].
Qed.

Lemma omap_length {A B : Type} (f : A -> outcome B) (xs : list A) (ys : list B) :
  omap f xs = Ok ys -> length ys = length xs.
Proof.
  revert ys. induction xs as [|x rest IH]; intros ys; simpl.
  - intros [= <-]. reflexivity.
  - destruct (f x) as [y|e]; simpl; [|discriminate].
    destruct (omap f rest) as [ys'|e]; simpl; [|discriminate].
    intros [= <-]. simpl. f_equal. now apply IH.
Qed.

(** X1. Check-elements on a payload that is a sequence gives one Element
    Type per raw code, in the same order, each holding its raw code. *)
Theorem check_elements_decoding (response : Response) (raw : list json) :
  dict_get response common.PAYLOAD = JList raw ->
  exists decoded : list ScType,
    CheckElementsResponseProcessor response = Ok decoded /\
    length decoded = length raw /\
    (forall i : nat, type_value <$> decoded !! i = raw !! i).
Proof.
  intros Hpayload. unfold CheckElementsResponseProcessor. rewrite Hpayload. simpl.
  eexists; split; [reflexivity|]. split.
  - now rewrite length_map.
  - intros i. rewrite list_lookup_fmap. now destruct (raw !! i).
Qed.

Lemma check_elements_decoding_witness :
  exists decoded : list ScType,
    CheckElementsResponseProcessor
      [("payload", JList [JInt 33; JInt 0; JInt 2112]); ("status", JBool true)]
    = Ok decoded /\
    length decoded = length [JInt 33; JInt 0; JInt 2112] /\
    (forall i : nat, type_value <$> decoded !! i = [JInt 33; JInt 0; JInt 2112] !! i).
Proof.
  apply (check_elements_decoding
           [("payload", JList [JInt 33; JInt 0; JInt 2112]); ("status", JBool true)]
           [JInt 33; JInt 0; JInt 2112]).
  reflexivity.
Defined.

(** X2. A response with no payload field makes create-elements and
    check-elements raise TypeError: neither guards the iteration against
    an absent payload. *)
Theorem elements_without_payload (response : Response) :
  common.PAYLOAD ∉ keys response ->
  CreateElementsResponseProcessor response = Raise TypeError /\
  CheckElementsResponseProcessor response = Raise TypeError.
Proof.
  intros Habsent.
  unfold CreateElementsResponseProcessor, CheckElementsResponseProcessor.
  rewrite (dict_get_absent response common.PAYLOAD Habsent). split; reflexivity.
Qed.

Lemma elements_without_payload_witness :
  CreateElementsResponseProcessor [("id", JInt 4); ("status", JBool false)]
  = Raise TypeError /\
  CheckElementsResponseProcessor [("id", JInt 4); ("status", JBool false)]
  = Raise TypeError.
Proof.
  apply (elements_without_payload [("id", JInt 4); ("status", JBool false)]).
  vm_compute. intros Hin.
  repeat (apply elem_of_cons in Hin as [Hin|Hin]; [discriminate Hin|]).
  inversion Hin.
Defined.

(** X3. A response with no status field makes delete-elements and
    set-link-content return [None], which tests false; they do not raise. *)
Theorem status_processors_without_status (response : Response) :
  common.STATUS ∉ keys response ->
  DeleteElementsResponseProcessor response = JNone /\
  SetLinkContentResponseProcessor response = JNone /\
  truthy (DeleteElementsResponseProcessor response) = false.
Proof.
  intros Habsent.
  unfold DeleteElementsResponseProcessor, SetLinkContentResponseProcessor.
  rewrite (dict_get_absent response common.STATUS Habsent). repeat split.
Qed.

Lemma status_processors_without_status_witness :
  DeleteElementsResponseProcessor [("payload", JList [JBool true])] = JNone /\
  SetLinkContentResponseProcessor [("payload", JList [JBool true])] = JNone /\
  truthy (DeleteElementsResponseProcessor [("payload", JList [JBool true])]) = false.
Proof.
  apply (status_processors_without_status [("payload", JList [JBool true])]).
  vm_compute. intros Hin.
  repeat (apply elem_of_cons in Hin as [Hin|Hin]; [discriminate Hin|]).
  inversion Hin.
Defined.

(** ** Edge behaviour of the template decoders *)

Lemma template_search_loop_aliases (shared : json) (addrs_lists : list json) :
  forall result results : list ScTemplateResult,
    template_search_loop shared addrs_lists result = Ok results ->
    (forall found, found ∈ result -> aliases found = shared) ->
    forall found, found ∈ results -> aliases found = shared.
Proof.
  induction addrs_lists as [|addrs_list rest IH]; intros result results; simpl.
  - intros [= <-] Hresult. exact Hresult.
  - destruct (iterate addrs_list) as [addr_values|e]; simpl; [|discriminate].
    intros Hloop Hresult. apply (IH _ _ Hloop).
    intros found Hin. apply elem_of_app in Hin as [Hin|Hin].
    + now apply Hresult.
    + apply list_elem_of_singleton in Hin. now subst.
Qed.

Lemma template_search_loop_scalar_row (shared : json) (addrs_lists : list json) :
  forall result : list ScTemplateResult,
    (exists row, row ∈ addrs_lists /\ scalar row = true) ->
    template_search_loop shared addrs_lists result = Raise TypeError.
Proof.
  induction addrs_lists as [|addrs_list rest IH]; intros result (row & Hin & Hrow).
  - inversion Hin.
  - simpl. destruct (iterate addrs_list) as [addr_values|e] eqn:Hiter; simpl.
    + apply IH. exists row. split; [|exact Hrow].
      apply elem_of_cons in Hin as [->|Hin]; [|exact Hin].
      apply iterate_returns in Hiter. congruence.
    + apply iterate_raises in Hiter as [-> _]. reflexivity.
Qed.

(** X4. Template generate returns [None] whenever the status is falsy,
    whatever the payload is; when the status is truthy and the payload
    carries [addrs] as a sequence, it returns the one Template Result that
    holds the wrapped addresses and the [aliases] value of the payload. *)
Theorem template_generate_decoding (response : Response) :
  (truthy (dict_get response common.STATUS) = false ->
   TemplateGenerateResponseProcessor response = Ok None) /\
  (forall (fields : list (string * json)) (raw : list json),
     truthy (dict_get response common.STATUS) = true ->
     dict_get response common.PAYLOAD = JDict fields ->
     dict_get fields common.ADDRS = JList raw ->
     TemplateGenerateResponseProcessor response
     = Ok (Some (mkScTemplateResult (map mkScAddr raw)
                   (dict_get fields common.ALIASES)))).
Proof.
  unfold TemplateGenerateResponseProcessor. split.
  - intros Hstatus. now rewrite Hstatus.
  - intros fields raw Hstatus Hpayload Haddrs.
    rewrite Hstatus, Hpayload. simpl. rewrite Haddrs. reflexivity.
Qed.

Lemma template_generate_decoding_witness :
  TemplateGenerateResponseProcessor [("payload", JStr "Parse error"); ("status", JInt 0)]
  = Ok None /\
  TemplateGenerateResponseProcessor
    [("status", JBool true);
     ("payload", JDict [("addrs", JList [JInt 5; JInt 6; JInt 7]);
                        ("aliases", JDict [("_node", JInt 2)])])]
  = Ok (Some (mkScTemplateResult [mkScAddr (JInt 5); mkScAddr (JInt 6); mkScAddr (JInt 7)]
                (JDict [("_node", JInt 2)]))).
Proof.
  split.
  - apply (proj1 (template_generate_decoding
                    [("payload", JStr "Parse error"); ("status", JInt 0)])).
    reflexivity.
  - apply (proj2 (template_generate_decoding
             [("status", JBool true);
              ("payload", JDict [("addrs", JList [JInt 5; JInt 6; JInt 7]);
                                 ("aliases", JDict [("_node", JInt 2)])])])
             [("addrs", JList [JInt 5; JInt 6; JInt 7]);
              ("aliases", JDict [("_node", JInt 2)])]
             [JInt 5; JInt 6; JInt 7]); reflexivity.
Defined.

(** X5. Generate and search agree on a single solution: when a generate
    payload carries the addresses [raw] and a search payload carries the
    one-row [addrs] [[raw]] with the same aliases, both with a truthy
    status, search returns exactly the one result that generate returns. *)
Theorem template_generate_matches_search (generated searched : Response)
  (fields1 fields2 : list (string * json)) (raw : list json) :
  truthy (dict_get generated common.STATUS) = true ->
  truthy (dict_get searched common.STATUS) = true ->
  dict_get generated common.PAYLOAD = JDict fields1 ->
  dict_get searched common.PAYLOAD = JDict fields2 ->
  dict_get fields1 common.ADDRS = JList raw ->
  dict_get fields2 common.ADDRS = JList [JList raw] ->
  dict_get fields1 common.ALIASES = dict_get fields2 common.ALIASES ->
  exists found : ScTemplateResult,
    TemplateGenerateResponseProcessor generated = Ok (Some found) /\
    TemplateSearchResponseProcessor searched = Ok [found].
Proof.
  intros Hs1 Hs2 Hp1 Hp2 Ha1 Ha2 Hal.
  unfold TemplateGenerateResponseProcessor, TemplateSearchResponseProcessor.
  rewrite Hs1, Hs2, Hp1, Hp2. simpl. rewrite Ha1, Ha2, Hal. simpl.
  eexists. split; reflexivity.
Qed.

Lemma template_generate_matches_search_witness :
  exists found : ScTemplateResult,
    TemplateGenerateResponseProcessor
      [("status", JBool true);
       ("payload", JDict [("aliases", JDict [("a", JInt 0)]);
                          ("addrs", JList [JInt 8; JInt 9])])]
    = Ok (Some found) /\
    TemplateSearchResponseProcessor
      [("status", JInt 1);
       ("payload", JDict [("addrs", JList [JList [JInt 8; JInt 9]]);
                          ("aliases", JDict [("a", JInt 0)])])]
    = Ok [found].
Proof.
  apply (template_generate_matches_search
           [("status", JBool true);
            ("payload", JDict [("aliases", JDict [("a", JInt 0)]);
                               ("addrs", JList [JInt 8; JInt 9])])]
           [("status", JInt 1);
            ("payload", JDict [("addrs", JList [JList [JInt 8; JInt 9]]);
                               ("aliases", JDict [("a", JInt 0)])])]
           [("aliases", JDict [("a", JInt 0)]); ("addrs", JList [JInt 8; JInt 9])]
           [("addrs", JList [JList [JInt 8; JInt 9]]); ("aliases", JDict [("a", JInt 0)])]
           [JInt 8; JInt 9]); reflexivity.
Defined.

(** X6. With a truthy status and no payload field, template search and
    template generate both raise AttributeError: the absent payload reads
    as [None], which has no [get]. *)
Theorem template_without_payload (response : Response) :
  truthy (dict_get response common.STATUS) = true ->
  common.PAYLOAD ∉ keys response ->
  TemplateSearchResponseProcessor response = Raise AttributeError /\
  TemplateGenerateResponseProcessor response = Raise AttributeError.
Proof.
  intros Hstatus Habsent.
  unfold TemplateSearchResponseProcessor, TemplateGenerateResponseProcessor.
  rewrite Hstatus, (dict_get_absent response common.PAYLOAD Habsent).
  split; reflexivity.
Qed.

Lemma template_without_payload_witness :
  TemplateSearchResponseProcessor [("status", JBool true)] = Raise AttributeError /\
  TemplateGenerateResponseProcessor [("status", JBool true)] = Raise AttributeError.
Proof.
  apply (template_without_payload [("status", JBool true)]).
  - reflexivity.
  - vm_compute. intros Hin.
    repeat (apply elem_of_cons in Hin as [Hin|Hin]; [discriminate Hin|]).
    inversion Hin.
Defined.

(** X7. With a truthy status and a payload object that has no [addrs]
    field, template search and template generate both raise TypeError: the
    missing field reads as [None], which cannot be iterated. *)
Theorem template_without_addrs (response : Response)
  (fields : list (string * json)) :
  truthy (dict_get response common.STATUS) = true ->
  dict_get response common.PAYLOAD = JDict fields ->
  common.ADDRS ∉ keys fields ->
  TemplateSearchResponseProcessor response = Raise TypeError /\
  TemplateGenerateResponseProcessor response = Raise TypeError.
Proof.
  intros Hstatus Hpayload Habsent.
  unfold TemplateSearchResponseProcessor, TemplateGenerateResponseProcessor.
  rewrite Hstatus, Hpayload. simpl.
  rewrite (dict_get_absent fields common.ADDRS Habsent). split; reflexivity.
Qed.

Lemma template_without_addrs_witness :
  TemplateSearchResponseProcessor
    [("status", JBool true); ("payload", JDict [("aliases", JDict [])])]
  = Raise TypeError /\
  TemplateGenerateResponseProcessor
    [("status", JBool true); ("payload", JDict [("aliases", JDict [])])]
  = Raise TypeError.
Proof.
  apply (template_without_addrs
           [("status", JBool true); ("payload", JDict [("aliases", JDict [])])]
           [("aliases", JDict [])]).
  - reflexivity.
  - reflexivity.
  - vm_compute. intros Hin.
    repeat (apply elem_of_cons in Hin as [Hin|Hin]; [discriminate Hin|]).
    inversion Hin.
Defined.

(** X8. Whenever template search returns, every result it returns holds
    the same aliases value: the one read from the payload object. *)
Theorem template_search_shared_aliases (response : Response)
  (results : list ScTemplateResult) (found : ScTemplateResult) :
  TemplateSearchResponseProcessor response = Ok results ->
  found ∈ results ->
  exists fields : list (string * json),
    dict_get response common.PAYLOAD = JDict fields /\
    aliases found = dict_get fields common.ALIASES.
Proof.
  unfold TemplateSearchResponseProcessor.
  destruct (truthy (dict_get response common.STATUS)).
  - destruct (dict_get response common.PAYLOAD) as [| | | | | |fields];
      simpl; try discriminate.
    destruct (iterate (dict_get fields common.ADDRS)) as [addrs_lists|e];
      simpl; [|discriminate].
    intros Hloop Hin. exists fields. split; [reflexivity|].
    apply (template_search_loop_aliases _ _ _ _ Hloop); [|exact Hin].
    intros other Hother. inversion Hother.
  - intros [= <-] Hin. inversion Hin.
Qed.

Lemma template_search_shared_aliases_witness :
  exists fields : list (string * json),
    dict_get
      [("status", JBool true);
       ("payload", JDict [("aliases", JDict [("x", JInt 0)]);
                          ("addrs", JList [JList [JInt 10; JInt 20];
                                           JList [JInt 30; JInt 40]])])]
      common.PAYLOAD = JDict fields /\
    aliases (mkScTemplateResult [mkScAddr (JInt 30); mkScAddr (JInt 40)]
               (JDict [("x", JInt 0)]))
    = dict_get fields common.ALIASES.
Proof.
  apply (template_search_shared_aliases
           [("status", JBool true);
            ("payload", JDict [("aliases", JDict [("x", JInt 0)]);
                               ("addrs", JList [JList [JInt 10; JInt 20];
                                                JList [JInt 30; JInt 40]])])]
           [mkScTemplateResult [mkScAddr (JInt 10); mkScAddr (JInt 20)]
              (JDict [("x", JInt 0)]);
            mkScTemplateResult [mkScAddr (JInt 30); mkScAddr (JInt 40)]
              (JDict [("x", JInt 0)])]).
  - reflexivity.
  - right. left.
Defined.

(** X9. Template search is all or nothing: with a truthy status and a
    payload whose [addrs] sequence contains a row that is [None], a boolean
    or a number, it raises TypeError and returns no partial results. *)
Theorem template_search_scalar_row (response : Response)
  (fields : list (string * json)) (rows : list json) (row : json) :
  truthy (dict_get response common.STATUS) = true ->
  dict_get response common.PAYLOAD = JDict fields ->
  dict_get fields common.ADDRS = JList rows ->
  row ∈ rows ->
  scalar row = true ->
  TemplateSearchResponseProcessor response = Raise TypeError.
Proof.
  intros Hstatus Hpayload Haddrs Hin Hrow.
  unfold TemplateSearchResponseProcessor. rewrite Hstatus, Hpayload. simpl.
  rewrite Haddrs. simpl. apply template_search_loop_scalar_row. eauto.
Qed.

Lemma template_search_scalar_row_witness :
  TemplateSearchResponseProcessor
    [("status", JBool true);
     ("payload", JDict [("aliases", JDict []);
                        ("addrs", JList [JList [JInt 1]; JNone; JList [JInt 2]])])]
  = Raise TypeError.
Proof.
  apply (template_search_scalar_row
           [("status", JBool true);
            ("payload", JDict [("aliases", JDict []);
                               ("addrs", JList [JList [JInt 1]; JNone; JList [JInt 2]])])]
           [("aliases", JDict []);
            ("addrs", JList [JList [JInt 1]; JNone; JList [JInt 2]])]
           [JList [JInt 1]; JNone; JList [JInt 2]] JNone).
  - reflexivity.
  - reflexivity.
  - reflexivity.
  - right. left.
  - reflexivity.
Defined.

(** ** Edge behaviour of the link decoders *)

Section LinkContentEdges.

Variable value_of : ScLinkContentType -> Z.

(** X10. Link-content decoding raises IndexError on an empty payload
    sequence, TypeError when the response has no payload field, and
    AttributeError when the first payload element is not an object. *)
Theorem link_content_failures (response : Response) :
  (dict_get response common.PAYLOAD = JList [] ->
   GetLinkContentResponseProcessor value_of response = Raise IndexError) /\
  (common.PAYLOAD ∉ keys response ->
   GetLinkContentResponseProcessor value_of response = Raise TypeError) /\
  (forall (first : json) (others : list json),
     dict_get response common.PAYLOAD = JList (first :: others) ->
     (forall fields, first <> JDict fields) ->
     GetLinkContentResponseProcessor value_of response = Raise AttributeError).
Proof.
  unfold GetLinkContentResponseProcessor. split; [|split].
  - intros Hpayload. now rewrite Hpayload.
  - intros Habsent. now rewrite (dict_get_absent response common.PAYLOAD Habsent).
  - intros first others Hpayload Hfirst. rewrite Hpayload. simpl.
    destruct first; try reflexivity. now destruct (Hfirst pairs).
Qed.

(** X11. Link-content decoding returns exactly when the payload is a
    sequence whose first element is an object; the status, the other
    payload elements and the fields of that object cannot make it raise. *)
Theorem link_content_returns_iff (response : Response) :
  (exists content, GetLinkContentResponseProcessor value_of response = Ok content)
  <-> (exists fields others,
         dict_get response common.PAYLOAD = JList (JDict fields :: others)).
Proof.
  unfold GetLinkContentResponseProcessor. split.
  - intros [content Hok].
    destruct (dict_get response common.PAYLOAD) as [| | | |s|items|pairs];
      simpl in Hok; try discriminate.
    + destruct (String.get 0 s); simpl in Hok; discriminate.
    + destruct items as [|first others]; simpl in Hok; [discriminate|].
      destruct first; simpl in Hok; try discriminate. eauto.
  - intros (fields & others & Hpayload). rewrite Hpayload. simpl. eauto.
Qed.

(** X12. When the first payload element is an object whose type field is
    missing or is not a string, link-content decoding does not raise: the
    kind is 0 and the data is the value field, [None] if that is missing. *)
Theorem link_content_untagged (response : Response)
  (fields : list (string * json)) (others : list json) :
  dict_get response common.PAYLOAD = JList (JDict fields :: others) ->
  (forall tag : string, dict_get fields common.TYPE <> JStr tag) ->
  GetLinkContentResponseProcessor value_of response
  = Ok (mkScLinkContent (dict_get fields common.VALUE) 0).
Proof.
  intros Hpayload Htag. unfold GetLinkContentResponseProcessor.
  rewrite Hpayload. simpl.
  destruct (dict_get fields common.TYPE) as [| | | |s| |]; try reflexivity.
  now destruct (Htag s).
Qed.

End LinkContentEdges.

Lemma link_content_failures_witness :
  GetLinkContentResponseProcessor example_kind_value
    [("status", JBool true); ("payload", JList [])] = Raise IndexError /\
  GetLinkContentResponseProcessor example_kind_value
    [("status", JBool true)] = Raise TypeError /\
  GetLinkContentResponseProcessor example_kind_value
    [("payload", JList [JList [JInt 1]; JDict [("type", JStr "int")]])]
  = Raise AttributeError.
Proof.
  split; [|split].
  - apply (proj1 (link_content_failures example_kind_value
                    [("status", JBool true); ("payload", JList [])])).
    reflexivity.
  - apply (proj1 (proj2 (link_content_failures example_kind_value
                           [("status", JBool true)]))).
    vm_compute. intros Hin.
    repeat (apply elem_of_cons in Hin as [Hin|Hin]; [discriminate Hin|]).
    inversion Hin.
  - apply (proj2 (proj2 (link_content_failures example_kind_value
             [("payload", JList [JList [JInt 1]; JDict [("type", JStr "int")]])]))
             (JList [JInt 1]) [JDict [("type", JStr "int")]]).
    + reflexivity.
    + discriminate.
Defined.

Lemma link_content_untagged_witness :
  GetLinkContentResponseProcessor example_kind_value
    [("payload", JList [JDict [("value", JInt 12)]]); ("status", JBool true)]
  = Ok (mkScLinkContent (JInt 12) 0).
Proof.
  apply (link_content_untagged example_kind_value
           [("payload", JList [JDict [("value", JInt 12)]]); ("status", JBool true)]
           [("value", JInt 12)] []).
  - reflexivity.
  - discriminate.
Defined.

(** X13. What links-by-content returns tells the two branches apart: a
    decoded result is never the empty sequence and comes from a truthy
    payload; a passed-through result is the payload itself and is falsy. *)
Theorem links_by_content_result_shape (response : Response) :
  (forall addr_lists : list (list ScAddr),
     GetLinksByContentResponseProcessor response = Ok (LinkAddrs addr_lists) ->
     addr_lists <> [] /\ truthy (dict_get response common.PAYLOAD) = true) /\
  (forall passed : json,
     GetLinksByContentResponseProcessor response = Ok (RawPayload passed) ->
     passed = dict_get response common.PAYLOAD /\ truthy passed = false).
Proof.
  unfold GetLinksByContentResponseProcessor.
  destruct (truthy (dict_get response common.PAYLOAD)) eqn:Htruthy; split.
  - intros addr_lists Hok. split; [|reflexivity].
    destruct (iterate (dict_get response common.PAYLOAD)) as [items|e] eqn:Hiter;
      simpl in Hok; [|discriminate].
    pose proof (truthy_iterate_nonempty _ _ Htruthy Hiter) as Hne.
    destruct (omap _ items) as [decoded|e] eqn:Hmap; simpl in Hok; [|discriminate].
    injection Hok as <-. apply omap_length in Hmap.
    destruct decoded; [|discriminate]. destruct items; [congruence|discriminate].
  - intros passed Hok.
    destruct (iterate (dict_get response common.PAYLOAD)) as [items|e];
      simpl in Hok; [|discriminate].
    destruct (omap _ items); simpl in Hok; discriminate.
  - intros addr_lists [=].
  - intros passed [= <-]. split; [reflexivity|exact Htruthy].
Qed.

Lemma omap_wrap_scalar_row (rows : list json) (row : json) :
  row ∈ rows ->
  scalar row = true ->
  omap (fun addr_list =>
          let* addr_values := iterate addr_list in
          Ok (wrap_addrs addr_values)) rows
  = Raise TypeError.
Proof.
  induction rows as [|first rest IH]; intros Hin Hrow.
  - inversion Hin.
  - simpl. destruct (iterate first) as [addr_values|e] eqn:Hiter; simpl.
    + rewrite IH; [reflexivity| |exact Hrow].
      apply elem_of_cons in Hin as [->|Hin]; [|exact Hin].
      apply iterate_returns in Hiter. congruence.
    + apply iterate_raises in Hiter as [-> _]. reflexivity.
Qed.

(** X14. Links-by-content is all or nothing: a payload sequence that
    contains a row that is [None], a boolean or a number makes it raise
    TypeError, whatever the other rows are. *)
Theorem links_by_content_scalar_row (response : Response)
  (rows : list json) (row : json) :
  dict_get response common.PAYLOAD = JList rows ->
  row ∈ rows ->
  scalar row = true ->
  GetLinksByContentResponseProcessor response = Raise TypeError.
Proof.
  intros Hpayload Hin Hrow. unfold GetLinksByContentResponseProcessor.
  rewrite Hpayload.
  rewrite truthy_nonempty_list by (intros ->; inversion Hin).
  simpl. now rewrite (omap_wrap_scalar_row rows row Hin Hrow).
Qed.

Lemma links_by_content_scalar_row_witness :
  GetLinksByContentResponseProcessor
    [("payload", JList [JList [JInt 3]; JInt 4]); ("status", JBool true)]
  = Raise TypeError.
Proof.
  apply (links_by_content_scalar_row
           [("payload", JList [JList [JInt 3]; JInt 4]); ("status", JBool true)]
           [JList [JInt 3]; JInt 4] (JInt 4)).
  - reflexivity.
  - right. left.
  - reflexivity.
Defined.

(** X15. Resolve-keynodes returns a sequence of addresses exactly when
    create-elements returns that sequence on the same response and the
    sequence is not empty. *)
Theorem resolve_keynodes_matches_create_elements (response : Response)
  (decoded : list ScAddr) :
  ResolveKeynodesResponseProcessor response = Ok (KeynodeAddrs decoded)
  <-> (CreateElementsResponseProcessor response = Ok decoded /\ decoded <> []).
Proof.
  unfold ResolveKeynodesResponseProcessor, CreateElementsResponseProcessor.
  destruct (iterate (dict_get response common.PAYLOAD)) as [items|e] eqn:Hiter;
    destruct (truthy (dict_get response common.PAYLOAD)) eqn:Htruthy; simpl.
  - pose proof (truthy_iterate_nonempty _ _ Htruthy Hiter) as Hne. split.
    + intros [= <-]. split; [reflexivity|].
      destruct items; [congruence|discriminate].
    + intros [[= <-] _]. reflexivity.
  - rewrite (falsy_iterate_empty _ _ Htruthy Hiter). split.
    + intros [=].
    + intros [[= <-] Hne]. now destruct Hne.
  - split; [intros [=]|intros [[=] _]].
  - split; [intros [=]|intros [[=] _]].
Qed.

(** X16. Resolve-keynodes raises only TypeError, and exactly when the
    payload is truthy but cannot be iterated: [True] or a non-zero number. *)
Theorem resolve_keynodes_raises_iff (response : Response) (e : exn) :
  ResolveKeynodesResponseProcessor response = Raise e
  <-> (e = TypeError /\
       truthy (dict_get response common.PAYLOAD) = true /\
       scalar (dict_get response common.PAYLOAD) = true).
Proof.
  unfold ResolveKeynodesResponseProcessor.
  destruct (truthy (dict_get response common.PAYLOAD)) eqn:Htruthy.
  - destruct (iterate (dict_get response common.PAYLOAD)) as [items|e'] eqn:Hiter;
      simpl.
    + apply iterate_returns in Hiter. split; [intros [=]|].
      intros (_ & _ & Hscalar). congruence.
    + apply iterate_raises in Hiter as [-> Hscalar]. split.
      * intros [= <-]. auto.
      * intros (-> & _). reflexivity.
  - split; [intros [=]|]. intros (_ & [=] & _).
Qed.

(** ** Edge behaviour of events create *)

Section EventsCreateEdges.

Context {EventType Callback : Type}.

Abbreviation Event := (ScEvent EventType Callback).
Abbreviation Table := (gmap json (ScEvent EventType Callback)).

Lemma events_create_loop_app (response : Response) (front back : list Event) :
  forall (count : nat) (result : list Event) (reg : Table),
    events_create_loop response count (front ++ back) result reg
    = match events_create_loop response count front result reg with
      | (Ok result', reg') =>
          events_create_loop response (count + length front) back result' reg'
      | (Raise e, reg') => (Raise e, reg')
      end.
Proof.
  induction front as [|event rest IH]; intros count result reg; simpl.
  - unfold sret. now rewrite Nat.add_0_r.
  - unfold sbind, slift.
    destruct (subscript (dict_get response common.PAYLOAD) count) as [command_id|e].
    + unfold session.set_event. rewrite IH.
      now replace (S count + length rest)%nat with (count + S (length rest))%nat by lia.
    + reflexivity.
Qed.

Lemma events_create_loop_same_ids (response1 response2 : Response)
  (ids1 ids2 : list json) :
  dict_get response1 common.PAYLOAD = JList ids1 ->
  dict_get response2 common.PAYLOAD = JList ids2 ->
  forall (events : list Event) (count : nat) (result : list Event) (reg : Table),
    (forall i : nat, (count <= i < count + length events)%nat -> ids1 !! i = ids2 !! i) ->
    events_create_loop response1 count events result reg
    = events_create_loop response2 count events result reg.
Proof.
  intros Hp1 Hp2. induction events as [|event rest IH]; intros count result reg Hsame.
  - reflexivity.
  - simpl. unfold sbind, slift. rewrite Hp1, Hp2. simpl.
    rewrite (Hsame count) by (simpl; lia).
    destruct (ids2 !! count) as [command_id|]; [|reflexivity].
    unfold session.set_event. apply IH.
    intros i Hi. apply Hsame. simpl. lia.
Qed.

Lemma events_create_loop_frame (response : Response) (ids : list json) (k : json) :
  dict_get response common.PAYLOAD = JList ids ->
  k ∉ ids ->
  forall (events : list Event) (count : nat) (result : list Event) (reg : Table),
    snd (events_create_loop response count events result reg) !! k = reg !! k.
Proof.
  intros Hpayload Hk. induction events as [|event rest IH]; intros count result reg.
  - reflexivity.
  - simpl. unfold sbind, slift. rewrite Hpayload. simpl.
    destruct (ids !! count) as [command_id|] eqn:Hid; [|reflexivity].
    unfold session.set_event. rewrite IH. apply lookup_insert_ne.
    intros ->. apply Hk. now apply list_elem_of_lookup_2 in Hid.
Qed.

Lemma events_create_loop_descriptor_ids (response : Response) :
  forall (events1 events2 : list Event) (count : nat) (result : list Event)
         (reg : Table),
    map (fun event => (event_type event, callback event)) events1
    = map (fun event => (event_type event, callback event)) events2 ->
    events_create_loop response count events1 result reg
    = events_create_loop response count events2 result reg.
Proof.
  induction events1 as [|event1 rest1 IH];
    intros [|event2 rest2] count result reg Hsame; simpl in Hsame;
    try discriminate; [reflexivity|].
  injection Hsame as Htype Hcallback Hrest. simpl. unfold sbind, slift.
  destruct (subscript (dict_get response common.PAYLOAD) count) as [command_id|e];
    [|reflexivity].
  rewrite Htype, Hcallback. unfold session.set_event. now apply IH.
Qed.

Lemma register_all_frame (created : list Event) (k : json) :
  forall reg : Table,
    k ∉ map id created -> register_all created reg !! k = reg !! k.
Proof.
  induction created as [|first rest IH]; intros reg Hk; [reflexivity|].
  change (register_all (first :: rest) reg)
    with (register_all rest (<[id first := first]> reg)).
  rewrite IH.
  - apply lookup_insert_ne. intros Heq. apply Hk. simpl. rewrite Heq. left.
  - intros Hin. apply Hk. simpl. now right.
Qed.

Lemma register_all_lookup_distinct (created : list Event) (sc_event : Event) :
  forall reg : Table,
    NoDup (map id created) ->
    sc_event ∈ created ->
    register_all created reg !! id sc_event = Some sc_event.
Proof.
  induction created as [|first rest IH]; intros reg Hnodup Hin; [inversion Hin|].
  change (register_all (first :: rest) reg)
    with (register_all rest (<[id first := first]> reg)).
  simpl in Hnodup. apply NoDup_cons in Hnodup as [Hfirst Hrest].
  apply elem_of_cons in Hin as [->|Hin].
  - rewrite register_all_frame by exact Hfirst. apply lookup_insert_eq.
  - now apply IH.
Qed.

Lemma subscribed_ids (ids : list json) :
  forall events : list Event,
    map id (zip_with subscribe ids events) = take (length events) ids.
Proof.
  induction ids as [|command_id ids IH]; intros [|event events]; simpl;
    try reflexivity.
  now rewrite IH.
Qed.

(** X17. Events create reads only the first N identifiers of the
    acknowledgement, N being the number of descriptors: two responses
    whose payload sequences agree on their first N elements give the same
    events and the same table. *)
Theorem events_create_ignores_extra_ids (response1 response2 : Response)
  (ids1 ids2 : list json) (events : list Event) (reg : Table) :
  dict_get response1 common.PAYLOAD = JList ids1 ->
  dict_get response2 common.PAYLOAD = JList ids2 ->
  take (length events) ids1 = take (length events) ids2 ->
  EventsCreateResponseProcessor response1 events reg
  = EventsCreateResponseProcessor response2 events reg.
Proof.
  intros Hp1 Hp2 Htake. unfold EventsCreateResponseProcessor.
  apply (events_create_loop_same_ids response1 response2 ids1 ids2 Hp1 Hp2).
  intros i Hi.
  rewrite <- (lookup_take_lt ids1 (length events) i) by lia.
  rewrite <- (lookup_take_lt ids2 (length events) i) by lia.
  now rewrite Htake.
Qed.

(** X18. When the payload sequence holds fewer identifiers than there are
    descriptors, the decode raises after it has registered an event for
    every identifier it was given: the table it leaves is the table a
    decode of the leading descriptors alone leaves, and that decode
    returns one event per identifier. *)
Theorem events_create_partial_registration (response : Response)
  (ids : list json) (events : list Event) (reg : Table) :
  dict_get response common.PAYLOAD = JList ids ->
  (length ids < length events)%nat ->
  exists created : list Event,
    EventsCreateResponseProcessor response (take (length ids) events) reg
    = (Ok created, snd (EventsCreateResponseProcessor response events reg)) /\
    length created = length ids.
Proof.
  intros Hpayload Hshort. unfold EventsCreateResponseProcessor.
  pose proof (events_create_loop_app response (take (length ids) events)
                (drop (length ids) events) 0%nat [] reg) as Happ.
  rewrite take_drop in Happ. rewrite Happ. clear Happ.
  rewrite (events_create_loop_acknowledged response ids Hpayload)
    by (rewrite length_take; simpl; lia).
  rewrite drop_0. eexists. split.
  - f_equal.
    destruct (drop (length ids) events) as [|event rest] eqn:Hdrop.
    + apply (f_equal length) in Hdrop. rewrite length_drop in Hdrop. simpl in Hdrop. lia.
    + simpl. unfold sbind, slift. rewrite Hpayload. simpl.
      rewrite length_take, Nat.min_l by lia.
      rewrite (lookup_ge_None_2 ids (length ids)) by lia. reflexivity.
  - simpl. rewrite length_zip_with, length_take. lia.
Qed.

(** X19. Events create writes only under identifiers of the payload
    sequence: any other key of the table maps to what it mapped to
    before, whether the decode returns or raises. *)
Theorem events_create_frame (response : Response) (ids : list json)
  (events : list Event) (reg : Table) (k : json) :
  dict_get response common.PAYLOAD = JList ids ->
  k ∉ ids ->
  snd (EventsCreateResponseProcessor response events reg) !! k = reg !! k.
Proof.
  intros Hpayload Hk. unfold EventsCreateResponseProcessor.
  now apply (events_create_loop_frame response ids k).
Qed.

(** X20. When the acknowledged identifiers are pairwise distinct and
    there are at least as many as descriptors, looking up the id of a
    returned event in the table gives back that very event. *)
Theorem events_create_lookup_distinct (response : Response) (ids : list json)
  (events : list Event) (reg : Table) :
  dict_get response common.PAYLOAD = JList ids ->
  (length events <= length ids)%nat ->
  NoDup ids ->
  exists (created : list Event) (reg' : Table),
    EventsCreateResponseProcessor response events reg = (Ok created, reg') /\
    (forall sc_event : Event,
       sc_event ∈ created -> reg' !! id sc_event = Some sc_event).
Proof.
  intros Hpayload Hlen Hnodup. unfold EventsCreateResponseProcessor.
  rewrite (events_create_loop_acknowledged response ids Hpayload) by (simpl; lia).
  rewrite drop_0. simpl. eexists _, _. split; [reflexivity|].
  intros sc_event Hin. apply register_all_lookup_distinct; [|exact Hin].
  rewrite subscribed_ids.
  exact (sublist_NoDup _ _ Hnodup (sublist_take ids (length events))).
Qed.

(** X21. Create then destroy is a round trip: when there are at least as
    many identifiers as descriptors and none of the identifiers is a key
    of the table, destroying the events that create returned restores the
    table, and destroy returns the status of its own response. *)
Theorem events_create_then_destroy (created_response destroyed_response : Response)
  (ids : list json) (events : list Event) (reg : Table) :
  dict_get created_response common.PAYLOAD = JList ids ->
  (length events <= length ids)%nat ->
  (forall k : json, k ∈ ids -> reg !! k = None) ->
  exists (created : list Event) (reg' : Table),
    EventsCreateResponseProcessor created_response events reg = (Ok created, reg') /\
    EventsDestroyResponseProcessor destroyed_response created reg'
    = (Ok (dict_get destroyed_response common.STATUS), reg).
Proof.
  intros Hpayload Hlen Hfresh. unfold EventsCreateResponseProcessor.
  rewrite (events_create_loop_acknowledged created_response ids Hpayload)
    by (simpl; lia).
  rewrite drop_0. simpl. eexists _, _. split; [reflexivity|].
  unfold EventsDestroyResponseProcessor, sbind.
  rewrite events_destroy_loop_spec. unfold sret. f_equal.
  apply map_eq. intros k. rewrite unregister_all_lookup.
  case_decide as Hin.
  - symmetry. apply Hfresh. rewrite subscribed_ids in Hin.
    apply (subseteq_take (length events) ids). exact Hin.
  - now apply register_all_frame.
Qed.

(** X22. Events create never reads the id a descriptor carries: two
    sequences of descriptors with the same event types and callbacks give
    the same events and the same table. *)
Theorem events_create_ignores_descriptor_ids (response : Response)
  (events1 events2 : list Event) (reg : Table) :
  map (fun event => (event_type event, callback event)) events1
  = map (fun event => (event_type event, callback event)) events2 ->
  EventsCreateResponseProcessor response events1 reg
  = EventsCreateResponseProcessor response events2 reg.
Proof.
  intros Hsame. unfold EventsCreateResponseProcessor.
  now apply events_create_loop_descriptor_ids.
Qed.

(** X23. With at least one descriptor and a response that has no payload
    field, events create raises TypeError and leaves the table as it was. *)
Theorem events_create_without_payload (response : Response)
  (events : list Event) (reg : Table) :
  common.PAYLOAD ∉ keys response ->
  events <> [] ->
  EventsCreateResponseProcessor response events reg = (Raise TypeError, reg).
Proof.
  intros Habsent Hevents. destruct events as [|event rest]; [congruence|].
  unfold EventsCreateResponseProcessor. simpl. unfold sbind, slift.
  now rewrite (dict_get_absent response common.PAYLOAD Habsent).
Qed.

End EventsCreateEdges.

Lemma events_create_ignores_extra_ids_witness :
  EventsCreateResponseProcessor acknowledged_two [on_add] ∅
  = EventsCreateResponseProcessor acknowledged_one [on_add] ∅.
Proof.
  apply (events_create_ignores_extra_ids acknowledged_two acknowledged_one
           [JInt 101; JInt 102] [JInt 101] [on_add] ∅); reflexivity.
Defined.

Lemma events_create_partial_registration_witness :
  exists created : list (ScEvent string string),
    EventsCreateResponseProcessor acknowledged_one
      (take (length [JInt 101]) [on_add; on_remove]) ∅
    = (Ok created,
       snd (EventsCreateResponseProcessor acknowledged_one [on_add; on_remove] ∅)) /\
    length created = length [JInt 101].
Proof.
  apply (events_create_partial_registration acknowledged_one [JInt 101]
           [on_add; on_remove] ∅).
  - reflexivity.
  - simpl. lia.
Defined.

Lemma events_create_frame_witness :
  snd (EventsCreateResponseProcessor acknowledged_two [on_add; on_remove]
         {[JInt 7 := mkScEvent (JInt 7) "remove_element" "on_remove"]})
  !! JInt 7
  = ({[JInt 7 := mkScEvent (JInt 7) "remove_element" "on_remove"]}
       : gmap json (ScEvent string string)) !! JInt 7.
Proof.
  apply (events_create_frame acknowledged_two [JInt 101; JInt 102]
           [on_add; on_remove]
           {[JInt 7 := mkScEvent (JInt 7) "remove_element" "on_remove"]} (JInt 7)).
  - reflexivity.
  - intros Hin.
    repeat (apply elem_of_cons in Hin as [Hin|Hin]; [discriminate Hin|]).
    inversion Hin.
Defined.

Lemma events_create_lookup_distinct_witness :
  exists (created : list (ScEvent string string))
         (reg' : gmap json (ScEvent string string)),
    EventsCreateResponseProcessor acknowledged_two [on_add; on_remove] ∅
    = (Ok created, reg') /\
    (forall sc_event : ScEvent string string,
       sc_event ∈ created -> reg' !! id sc_event = Some sc_event).
Proof.
  apply (events_create_lookup_distinct acknowledged_two [JInt 101; JInt 102]
           [on_add; on_remove] ∅).
  - reflexivity.
  - simpl. lia.
  - apply NoDup_cons. split.
    + intros Hin.
      repeat (apply elem_of_cons in Hin as [Hin|Hin]; [discriminate Hin|]).
      inversion Hin.
    + apply NoDup_singleton.
Defined.

Lemma events_create_then_destroy_witness :
  exists (created : list (ScEvent string string))
         (reg' : gmap json (ScEvent string string)),
    EventsCreateResponseProcessor acknowledged_two [on_add; on_remove] ∅
    = (Ok created, reg') /\
    EventsDestroyResponseProcessor [("status", JBool false)] created reg'
    = (Ok (dict_get [("status", JBool false)] common.STATUS), ∅).
Proof.
  apply (events_create_then_destroy acknowledged_two [("status", JBool false)]
           [JInt 101; JInt 102] [on_add; on_remove] ∅).
  - reflexivity.
  - simpl. lia.
  - intros k _. apply lookup_empty.
Defined.

Lemma events_create_ignores_descriptor_ids_witness :
  EventsCreateResponseProcessor acknowledged_two
    [on_add; mkScEvent (JInt 55) "remove_element" "on_remove"] ∅
  = EventsCreateResponseProcessor acknowledged_two [on_add; on_remove] ∅.
Proof.
  apply (events_create_ignores_descriptor_ids acknowledged_two
           [on_add; mkScEvent (JInt 55) "remove_element" "on_remove"]
           [on_add; on_remove] ∅).
  reflexivity.
Defined.

Lemma events_create_without_payload_witness :
  EventsCreateResponseProcessor [("status", JBool true)] [on_add] ∅
  = (Raise TypeError, (∅ : gmap json (ScEvent string string))).
Proof.
  apply (events_create_without_payload [("status", JBool true)] [on_add] ∅).
  - vm_compute. intros Hin.
    repeat (apply elem_of_cons in Hin as [Hin|Hin]; [discriminate Hin|]).
    inversion Hin.
  - discriminate.
Defined.

(** ** The table along a history of decodes *)

Section RegistryHistory.

Context {EventType Callback : Type}.

Abbreviation Event := (ScEvent EventType Callback).
Abbreviation Table := (gmap json (ScEvent EventType Callback)).

Lemma register_all_held (created : list Event) (k : json) (held : Event) :
  forall reg : Table,
    register_all created reg !! k = Some held ->
    held ∈ created \/ reg !! k = Some held.
Proof.
  induction created as [|first rest IH]; intros reg Hheld; [now right|].
  change (register_all (first :: rest) reg)
    with (register_all rest (<[id first := first]> reg)) in Hheld.
  apply IH in Hheld as [Hin|Hheld].
  - left. now right.
  - rewrite lookup_insert in Hheld. case_decide as Hk.
    + injection Hheld as <-. left. left.
    + now right.
Qed.

Lemma create_step_table (response : Response) (events created : list Event)
  (reg : Table) :
  fst (EventsCreateResponseProcessor response events reg) = Ok created ->
  snd (EventsCreateResponseProcessor response events reg) = register_all created reg.
Proof.
  unfold EventsCreateResponseProcessor. intros Hok.
  destruct (events_create_loop_effect response events 0%nat [] reg)
    as (new & -> & Hcreated).
  now rewrite (Hcreated created Hok).
Qed.

Lemma create_step_returns (response : Response) (events : list Event) (reg : Table) :
  returns (CreateStep response events) = true ->
  exists created : list Event,
    fst (EventsCreateResponseProcessor response events reg) = Ok created.
Proof.
  simpl. unfold EventsCreateResponseProcessor.
  rewrite (events_create_loop_outcome response events 0%nat [] ∅ reg).
  destruct (fst (events_create_loop response 0 events [] reg)) as [created|e];
    [eauto|discriminate].
Qed.

Lemma run_step_held (step : Step) (reg : Table) (live : list Event) :
  returns step = true ->
  keyed_by_id reg ->
  held_are_live reg live ->
  held_are_live (run_step step reg) (live_step step reg live).
Proof.
  intros Hreturns Hkeyed Hheld k held.
  destruct step as [response events|response events].
  - destruct (create_step_returns response events reg Hreturns) as [created Hok].
    simpl. rewrite (create_step_table _ _ _ _ Hok), Hok.
    intros Hk. apply elem_of_app.
    apply register_all_held in Hk as [Hin|Hk]; [now right|left].
    now apply (Hheld k).
  - simpl. unfold EventsDestroyResponseProcessor, sbind.
    rewrite events_destroy_loop_spec. simpl. rewrite unregister_all_lookup.
    case_decide as Hin; [discriminate|]. intros Hk.
    apply list_elem_of_filter. split; [|now apply (Hheld k)].
    now rewrite (Hkeyed k held Hk).
Qed.

Lemma run_step_stored (step : Step) (reg : Table) (live : list Event) :
  returns step = true ->
  fresh_step step reg = true ->
  live_are_stored reg live ->
  live_are_stored (run_step step reg) (live_step step reg live).
Proof.
  intros Hreturns Hfresh Hstored subscription.
  destruct step as [response events|response events].
  - destruct (create_step_returns response events reg Hreturns) as [created Hok].
    simpl in Hfresh. simpl. rewrite (create_step_table _ _ _ _ Hok), Hok.
    rewrite Hok in Hfresh. apply andb_prop in Hfresh as [Hnodup Hnew].
    apply bool_decide_eq_true in Hnodup.
    intros Hin. apply elem_of_app in Hin as [Hin|Hin].
    + rewrite register_all_frame; [now apply Hstored|].
      intros Hid. apply list_elem_of_fmap_1 in Hid as (other & Hid & Hother).
      rewrite forallb_forall in Hnew.
      specialize (Hnew other (proj1 (list_elem_of_In _ _) Hother)).
      rewrite <- Hid, (Hstored subscription Hin) in Hnew. discriminate.
    + now apply register_all_lookup_distinct.
  - simpl. unfold EventsDestroyResponseProcessor, sbind.
    rewrite events_destroy_loop_spec. simpl. rewrite unregister_all_lookup.
    intros Hin. apply list_elem_of_filter in Hin as [Hid Hin].
    rewrite decide_False by exact Hid. now apply Hstored.
Qed.

Lemma run_held (steps : list Step) :
  forall (reg : Table) (live : list Event),
    forallb returns steps = true ->
    keyed_by_id reg ->
    held_are_live reg live ->
    held_are_live (run steps reg) (live_subscriptions steps reg live).
Proof.
  induction steps as [|step rest IH]; intros reg live Hreturns Hkeyed Hheld.
  - exact Hheld.
  - simpl in Hreturns. apply andb_prop in Hreturns as [Hstep Hrest].
    apply (IH (run_step step reg) (live_step step reg live) Hrest).
    + now apply run_step_keyed.
    + now apply run_step_held.
Qed.

Lemma run_stored (steps : list Step) :
  forall (reg : Table) (live : list Event),
    forallb returns steps = true ->
    fresh_ids steps reg = true ->
    live_are_stored reg live ->
    live_are_stored (run steps reg) (live_subscriptions steps reg live).
Proof.
  induction steps as [|step rest IH]; intros reg live Hreturns Hfresh Hstored.
  - exact Hstored.
  - simpl in Hreturns, Hfresh.
    apply andb_prop in Hreturns as [Hstep Hrest].
    apply andb_prop in Hfresh as [Hfstep Hfrest].
    apply (IH (run_step step reg) (live_step step reg live) Hrest Hfrest).
    now apply run_step_stored.
Qed.


End RegistryHistory.


